(** * pybot: KITTI dataset glue and the KLT tracking orchestrator

    A shallow embedding of [src/trackers/base_klt.py] and
    [src/pybot/utils/dataset/kitti.py].

    Conventions.
    - Python exceptions are values of [exn]; a fallible call returns an
      [outcome].
    - Image coordinates are floats in the source.  Only conversion to an
      integer ([int(..)], [astype(np.int32)]) is ever applied to them, so
      a coordinate is a rational and the conversion truncates toward zero.
      Non-finite floats are outside the model.
    - The collaborators that live outside the two source files (OpenCV,
      numpy's text parser, the dataset readers, the feature detector, the
      optical-flow tracker and the TrackManager) are interfaces: classes
      whose instances supply them. *)

From Stdlib Require Import ZArith QArith List String Ascii Bool Lia.
Import ListNotations.
Local Open Scope string_scope.
Local Open Scope list_scope.
Local Open Scope Z_scope.

(** ** Python values and exceptions *)

Inductive exn : Type :=
| IndexError
| ValueError
| RuntimeError
| AttributeError
| IOError.

Inductive outcome (A : Type) : Type :=
| Ok (a : A)
| Raise (e : exn).
Arguments Ok {A} a.
Arguments Raise {A} e.

Module Py.

(** [len(l)] as a Python integer. *)
Definition len {A} (l : list A) : Z := Z.of_nat (List.length l).

(** Index normalisation shared by Python sequences and numpy axes:
    [i] is valid for a length [n] when [-n <= i < n]; a negative index
    counts from the end. *)
Definition norm_index (n i : Z) : option Z :=
  if (0 <=? i) && (i <? n) then Some i
  else if (i <? 0) && (- n <=? i) then Some (i + n)
  else None.

(** [l[i]]. *)
Definition getitem {A} (l : list A) (i : Z) : outcome A :=
  match norm_index (len l) i with
  | Some k =>
      match nth_error l (Z.to_nat k) with
      | Some x => Ok x
      | None => Raise IndexError
      end
  | None => Raise IndexError
  end.

(** [collections.deque(maxlen=n).append(x)]: push on the right and drop
    from the left whatever exceeds [maxlen]. *)
Definition deque_append {A} (maxlen : nat) (d : list A) (x : A) : list A :=
  skipn (List.length d + 1 - maxlen) (d ++ [x])%list.

(** [int(x)] on a finite float: truncation toward zero. *)
Definition int_of_float (q : Q) : Z := Z.quot (Qnum q) (Z.pos (Qden q)).

(** Characters removed by [str.strip()]. *)
Definition is_space (c : ascii) : bool :=
  let n := nat_of_ascii c in
  (Nat.eqb n 32 || (Nat.leb 9 n && Nat.leb n 13))%bool.

Definition is_digit (c : ascii) : bool :=
  let n := nat_of_ascii c in (Nat.leb 48 n && Nat.leb n 57)%bool.

Definition digit_val (c : ascii) : Z := Z.of_nat (nat_of_ascii c) - 48.

Fixpoint lstrip (s : list ascii) : list ascii :=
  match s with
  | c :: s' => if is_space c then lstrip s' else s
  | [] => []
  end.

Definition strip (s : list ascii) : list ascii :=
  rev (lstrip (rev (lstrip s))).

(** Value of a run of decimal digits, [None] on any other character. *)
Fixpoint digits (acc : Z) (s : list ascii) : option Z :=
  match s with
  | [] => Some acc
  | c :: s' => if is_digit c then digits (10 * acc + digit_val c) s' else None
  end.

(** An optional sign in front of the digits. *)
Definition split_sign (body : list ascii) : bool * list ascii :=
  match body with
  | "-"%char :: r => (true, r)
  | "+"%char :: r => (false, r)
  | r => (false, r)
  end.

(** [int(s)] on a Python 2 [str] in base 10: surrounding white space,
    an optional sign, then at least one decimal digit. *)
Definition int_of_str (s : string) : outcome Z :=
  let '(neg, ds) := split_sign (strip (list_ascii_of_string s)) in
  match ds with
  | [] => Raise ValueError
  | _ =>
      match digits 0 ds with
      | Some n => Ok (if neg then - n else n)
      | None => Raise ValueError
      end
  end.

End Py.

(** ** Collaborators of the tracker

    [base_klt.py] imports everything it computes with: the image
    preprocessing, the feature detector, the optical-flow tracker, OpenCV's
    circle drawing and the [TrackManager].  They are interfaces here. *)

Definition point : Type := Q * Q.

(** The shape of a frame: rows and columns and, for a colour frame, a
    third axis of channels ([im.shape] then has three entries). *)
Record Shape : Type := { rows : Z; cols : Z; color : bool }.

(** A [uint8] mask of a given shape, read as [mdata row col]; on a mask
    with channels every channel holds that value, since the only drawing
    is in the scalar colour 0. *)
Record Mask : Type := { mshape : Shape; mdata : Z -> Z -> Z }.

Class Vision : Type := {
  (* frames handed to [process], and what [gaussian_blur(to_gray(im))] makes of them *)
  Image : Type;
  Gray : Type;
  (* [im.shape] *)
  im_shape : Image -> Shape;
  gaussian_blur_to_gray : Image -> Gray;
  (* [self.tracker_.track(prev, cur, ppts)] *)
  tracker_track : Gray -> Gray -> list point -> list point;
  (* [self.detector_.process(im, mask=mask)] *)
  detector_process : Gray -> Mask -> list point;
  (* whether [cv2.circle] takes (x, y) as a centre; it raises otherwise *)
  circle_drawable : Z * Z -> bool;
  (* the value a filled, anti-aliased [cv2.circle] of the given radius and
    colour leaves at the pixel at offset (dx, dy) from its centre, from the
    value that was there: [circle_pixel radius color dx dy old] *)
  circle_pixel : Z -> Z -> Z -> Z -> Z -> Z
}.

(** The [TrackManager] as [base_klt.py] uses it: the constructor, the
    [ids], [pts] and [tracks] properties and [add].  [pts] may be [None]
    as far as the caller is concerned, since [process] tests for it. *)
Class TrackManager (T : Type) : Type := {
  tm_new : nat -> T;
  tm_ids : T -> list Z;
  tm_pts : T -> option (list point);
  tm_tracks : T -> list (Z * list point);
  tm_add : list point -> option (list Z) -> bool -> T -> T
}.

(** ** The spec's TrackManager *)

Module SpecTM.

(** Modelled from the spec: the state of the [TrackManager] class of
    [bot_vision.trackers] (section 3): the configured maximum history, the
    next id to allocate, and the tracks in iteration order, each an id with
    its history, most recent observation last. *)
Record t : Type := { maxlen : nat; next_id : Z; tracks : list (Z * list point) }.

Definition latest (h : list point) : list point :=
  match rev h with p :: _ => [p] | [] => [] end.

Definition has_id (i : Z) (l : list Z) : bool := existsb (Z.eqb i) l.

(** Append an observation to the history of track [i]; a pair whose id
    names no track is dropped. *)
Definition observe (n : nat) (i : Z) (p : point) (tr : list (Z * list point))
  : list (Z * list point) :=
  map (fun e => if Z.eqb (fst e) i then (fst e, Py.deque_append n (snd e) p) else e) tr.

Fixpoint fresh (k : Z) (pts : list point) : list (Z * list point) :=
  match pts with
  | [] => []
  | p :: r => (k, [p]) :: fresh (k + 1) r
  end.

(** Modelled from the spec: [TrackManager.add] (sections 4.1 and 7).  Empty
    or mismatched input is no update; with ids each pair appends to the
    named history and pruning removes the tracks not named; without ids
    every point becomes a track under a fresh id. *)
Definition add (pts : list point) (ids : option (list Z)) (prune : bool) (m : t) : t :=
  match pts with
  | [] => m
  | _ =>
      match ids with
      | None =>
          {| maxlen := maxlen m;
             next_id := next_id m + Py.len pts;
             tracks := tracks m ++ fresh (next_id m) pts |}
      | Some l =>
          if Nat.eqb (List.length l) (List.length pts) then
            let tr := fold_left (fun tr ip => observe (maxlen m) (fst ip) (snd ip) tr)
                                (combine l pts) (tracks m) in
            {| maxlen := maxlen m;
               next_id := next_id m;
               tracks := if prune then filter (fun e => has_id (fst e) l) tr else tr |}
          else m
      end
  end.

End SpecTM.

(** Modelled from the spec: the [TrackManager] class of [bot_vision.trackers],
    which [base_klt.py] imports.  Section 4.1: a track is an id with a
    bounded history, most recent last; [add] with ids appends to the named
    histories, evicts the oldest entry beyond the maximum and, when pruning,
    removes every track not named; [add] without ids allocates fresh ids;
    [pts] is empty, not none, when there is no track.  Section 7: [add] on
    empty or mismatched input is no update. *)
#[export] Instance spec_track_manager : TrackManager SpecTM.t := {
  tm_new := fun n => {| SpecTM.maxlen := n; SpecTM.next_id := 0; SpecTM.tracks := [] |};
  tm_ids := fun m => map fst (SpecTM.tracks m);
  tm_pts := fun m => Some (flat_map (fun e => SpecTM.latest (snd e)) (SpecTM.tracks m));
  tm_tracks := SpecTM.tracks;
  tm_add := SpecTM.add
}.

(** ** base_klt.py *)

Module KLT.
Section Tracker.

Context {V : Vision} {T : Type} {TM : TrackManager T}.

(** The attributes of an [OpenCVKLT] instance that [process] and
    [matches] read or write. *)
Record OpenCVKLT : Type := {
  tm_ : T;
  min_tracks_ : Z;
  ims_ : list Gray;
  add_features_ : bool
}.

(** Calls that leave the instance: to the tracker, the detector, the
    mask window and the TrackManager. *)
Inductive Event : Type :=
| EvTrack (prev cur : Gray) (ppts : list point)
| EvDetect (im : Gray) (mask : Mask)
| EvImshow (mask : Mask)
| EvTMAdd (pts : list point) (ids : option (list Z)) (prune : bool).

(** A method body: it reads and writes the instance, may raise, and
    leaves a log of its outside calls.  What was written before a raise
    stays written. *)
Definition M (A : Type) : Type := OpenCVKLT -> outcome A * OpenCVKLT * list Event.

Definition ret {A} (a : A) : M A := fun s => (Ok a, s, []).

Definition bind {A B} (m : M A) (k : A -> M B) : M B :=
  fun s =>
    match m s with
    | (Ok a, s1, l1) => let '(r, s2, l2) := k a s1 in (r, s2, l1 ++ l2)
    | (Raise e, s1, l1) => (Raise e, s1, l1)
    end.

Definition get : M OpenCVKLT := fun s => (Ok s, s, []).
Definition put (s : OpenCVKLT) : M unit := fun _ => (Ok tt, s, []).
Definition emit (e : Event) : M unit := fun s => (Ok tt, s, [e]).
Definition lift {A} (o : outcome A) : M A := fun s => (o, s, []).

Notation "x <- m ;; k" := (bind m (fun x => k))
  (at level 100, m at next level, right associativity).
Notation "m ;;; k" := (bind m (fun _ => k))
  (at level 100, right associativity).

Definition set_ims (ims : list Gray) : M unit :=
  s <- get ;;
  put {| tm_ := tm_ s; min_tracks_ := min_tracks_ s; ims_ := ims;
         add_features_ := add_features_ s |}.

Definition set_add_features (b : bool) : M unit :=
  s <- get ;;
  put {| tm_ := tm_ s; min_tracks_ := min_tracks_ s; ims_ := ims_ s;
         add_features_ := b |}.

(** [self.tm_.add(pts, ids=ids, prune=prune)] *)
Definition call_tm_add (pts : list point) (ids : option (list Z)) (prune : bool) : M unit :=
  s <- get ;;
  emit (EvTMAdd pts ids prune) ;;;
  put {| tm_ := tm_add pts ids prune (tm_ s); min_tracks_ := min_tracks_ s;
         ims_ := ims_ s; add_features_ := add_features_ s |}.

(** [BaseKLT.__init__] followed by [OpenCVKLT.__init__]. *)
Definition init (max_track_length : nat) (min_tracks : Z) : OpenCVKLT :=
  {| tm_ := tm_new max_track_length; min_tracks_ := min_tracks;
     ims_ := []; add_features_ := true |}.

(** [OpenCVKLT.reset] *)
Definition reset : M unit := set_add_features true.

(** [tuple(map(int, pt))] and a row of [astype(np.int32)]. *)
Definition pixel (pt : point) : Z * Z :=
  (Py.int_of_float (fst pt), Py.int_of_float (snd pt)).

(** [cv2.circle(mask, center, radius, color, -1, lineType=cv2.CV_AA)]: a
    filled circle with an anti-aliased rim; [center] is (x, y), that is
    (column, row). *)
Definition cv2_circle (m : Mask) (center : Z * Z) (radius color : Z) : Mask :=
  {| mshape := mshape m;
     mdata := fun row col =>
       circle_pixel radius color (col - fst center) (row - snd center) (mdata m row col) |}.

(** The loop of [create_mask].  The [try] is around the whole loop: the
    first point whose circle cannot be drawn ends the drawing. *)
Fixpoint draw_circles (m : Mask) (pts : list point) : Mask :=
  match pts with
  | [] => m
  | pt :: rest =>
      if circle_drawable (pixel pt)
      then draw_circles (cv2_circle m (pixel pt) 9 0) rest
      else m
  end.

(** [OpenCVKLT.create_mask].  Iterating over [None] raises inside the
    [try], which leaves the mask all 255. *)
Definition create_mask (shape : Shape) (pts : option (list point)) : Mask :=
  let mask := {| mshape := shape; mdata := fun _ _ => 255 |} in
  match pts with
  | None => mask
  | Some l => draw_circles mask l
  end.

(** [mask[row, col]] for one index pair of a fancy index. *)
Definition mask_at (m : Mask) (row col : Z) : outcome Z :=
  match Py.norm_index (rows (mshape m)) row, Py.norm_index (cols (mshape m)) col with
  | Some r, Some c => Ok (mdata m r c)
  | _, _ => Raise IndexError
  end.

(** [mask[xy[:,1], xy[:,0]] > 0] on a mask without channels, and the
    candidates it keeps: any index pair out of range is an [IndexError]. *)
Fixpoint take_valid (m : Mask) (detected_pts : list point) : outcome (list point) :=
  match detected_pts with
  | [] => Ok []
  | pt :: rest =>
      match mask_at m (snd (pixel pt)) (fst (pixel pt)) with
      | Raise e => Raise e
      | Ok v =>
          match take_valid m rest with
          | Raise e => Raise e
          | Ok r => Ok (if 0 <? v then pt :: r else r)
          end
      end
  end.

(** [valid = mask[xy[:,1], xy[:,0]] > 0; detected_pts[valid]].  On the
    mask of a colour frame [valid] has a column per channel and does not
    match the two columns of [detected_pts]: the boolean index is an
    [IndexError]. *)
Definition select_valid (m : Mask) (detected_pts : list point) : outcome (list point) :=
  match take_valid m detected_pts with
  | Raise e => Raise e
  | Ok r => if color (mshape m) then Raise IndexError else Ok r
  end.

Definition is_none {A} (o : option A) : bool :=
  match o with None => true | Some _ => false end.

(** [ppts is not None and len(ppts)] *)
Definition nonempty (o : option (list point)) : bool :=
  match o with Some (_ :: _) => true | _ => false end.

(** [ppts is not None and len(ppts) < self.min_tracks_] *)
Definition below (o : option (list point)) (n : Z) : bool :=
  match o with Some l => Py.len l <? n | None => false end.

Definition points_of (o : option (list point)) : list point :=
  match o with Some l => l | None => [] end.

(** [OpenCVKLT.process] *)
Definition process (im : Image) (detected_pts : option (list point))
  : M (list Z * option (list point)) :=
  s0 <- get ;;
  set_ims (Py.deque_append 2 (ims_ s0) (gaussian_blur_to_gray im)) ;;;
  s <- get ;;
  let pids := tm_ids (tm_ s) in
  let ppts := tm_pts (tm_ s) in
  (if nonempty ppts && (Py.len (ims_ s) =? 2) then
     prev <- lift (Py.getitem (ims_ s) (-2)) ;;
     cur <- lift (Py.getitem (ims_ s) (-1)) ;;
     emit (EvTrack prev cur (points_of ppts)) ;;;
     call_tm_add (tracker_track prev cur (points_of ppts)) (Some pids) true
   else ret tt) ;;;
  set_add_features (add_features_ s || is_none ppts || below ppts (min_tracks_ s)) ;;;
  s1 <- get ;;
  (if add_features_ s1 then
     let mask := create_mask (im_shape im) ppts in
     emit (EvImshow mask) ;;;
     new_pts <- match detected_pts with
                | None =>
                    cur <- lift (Py.getitem (ims_ s1) (-1)) ;;
                    emit (EvDetect cur mask) ;;;
                    ret (detector_process cur mask)
                | Some d => lift (select_valid mask d)
                end ;;
     call_tm_add new_pts None false ;;;
     set_add_features false
   else ret tt) ;;;
  s2 <- get ;;
  ret (tm_ids (tm_ s2), tm_pts (tm_ s2)).

(** [np.vstack] of a Python list of points: an empty list is an error. *)
Definition np_vstack (l : list point) : outcome (list point) :=
  match l with [] => Raise ValueError | _ => Ok l end.

(** The loop of [BaseKLT.matches] over [self.tm_.tracks.iteritems()]. *)
Fixpoint matches_loop (index1 index2 : Z) (tracks : list (Z * list point))
  : outcome (list Z * list point * list point) :=
  match tracks with
  | [] => Ok ([], [], [])
  | (tid, pts) :: rest =>
      if (Py.len pts >? Z.abs index1) && (Py.len pts >? Z.abs index2) then
        match Py.getitem pts index1, Py.getitem pts index2 with
        | Ok a, Ok b =>
            match matches_loop index1 index2 rest with
            | Ok (tids, p1, p2) => Ok (tid :: tids, a :: p1, b :: p2)
            | Raise e => Raise e
            end
        | Raise e, _ => Raise e
        | _, Raise e => Raise e
        end
      else matches_loop index1 index2 rest
  end.

(** [BaseKLT.matches]; the bare [except] turns a failed [np.vstack]
    into three empty arrays. *)
Definition matches (index1 index2 : Z) (s : OpenCVKLT)
  : outcome (list Z * list point * list point) :=
  match matches_loop index1 index2 (tm_tracks (tm_ s)) with
  | Raise e => Raise e
  | Ok (tids, p1, p2) =>
      match np_vstack p1, np_vstack p2 with
      | Ok a, Ok b => Ok (tids, a, b)
      | _, _ => Ok ([], [], [])
      end
  end.

(** [matches()] with the defaults [index1=-2, index2=-1]. *)
Definition matches_default : OpenCVKLT -> outcome (list Z * list point * list point) :=
  matches (-2) (-1).

(** A caller feeding frames one after the other; a raising call leaves
    the instance as it was when it raised.  The result is the final
    instance and the log of each call, first call first. *)
Fixpoint run (calls : list (Image * option (list point))) (s : OpenCVKLT)
  : OpenCVKLT * list (list Event) :=
  match calls with
  | [] => (s, [])
  | (im, d) :: rest =>
      let '(_, s1, log) := process im d s in
      let '(s2, logs) := run rest s1 in
      (s2, log :: logs)
  end.

End Tracker.

Arguments OpenCVKLT {V} T.
Arguments M {V} T A.

End KLT.

(** ** kitti.py: calibration lookup *)

Module Kitti.

(** A stereo camera as the source builds it: [from_calib_params] on the
    table constants, then [scaled].  [pybot.vision.camera_utils] is not
    part of the two files, so the two calls stay symbolic. *)
Inductive StereoCamera : Type :=
| from_calib_params (fx fy cx cy baseline_px : Q) (shape : Z * Z)
| scaled (c : StereoCamera) (scale : Q).

(** The class attributes of [KITTIDatasetReader]. *)
Definition kitti_00_02 : StereoCamera :=
  from_calib_params (71886 # 100) (71886 # 100) (60719 # 100) (18522 # 100)
                    (3861448 # 10000) (376, 1241).
Definition kitti_03 : StereoCamera :=
  from_calib_params (7215377 # 10000) (7215377 # 10000) (6095593 # 10000) (172854 # 1000)
                    (3875744 # 10000) (376, 1241).
Definition kitti_04_12 : StereoCamera :=
  from_calib_params (7070912 # 10000) (7070912 # 10000) (6018873 # 10000) (1831104 # 10000)
                    (3798145 # 10000) (376, 1241).

(** [kitti_stereo_calib]; the [print] is left out. *)
Definition kitti_stereo_calib (sequence : string) (scale : Q) : outcome StereoCamera :=
  match Py.int_of_str sequence with
  | Raise e => Raise e
  | Ok seq =>
      if (0 <=? seq) && (seq <=? 2) then Ok (scaled kitti_00_02 scale)
      else if seq =? 3 then Ok (scaled kitti_03 scale)
      else if (4 <=? seq) && (seq <=? 12) then Ok (scaled kitti_04_12 scale)
      else Raise RuntimeError
  end.

(** ** kitti.py: pose files *)

(** Floats as text: Python's [str] on a float, and numpy's text reader on
    a run of characters without white space: the number it finds at the
    head of the run, with what it leaves unread of the run. *)
Class FloatText : Type := {
  F : Type;
  float_str : F -> string;
  float_head : string -> option (F * string)
}.

(** A text the reader takes as one number, all of it. *)
Definition float_parse `{FloatText} (s : string) : option F :=
  match float_head s with
  | Some (x, EmptyString) => Some x
  | _ => None
  end.

Definition row3 `{FloatText} : Type := F * F * F.
Definition row4 `{FloatText} : Type := F * F * F * F.

(** [RigidTransform] of [pybot.geometry.rigid_transform]: built by
    [from_Rt], read back through [.matrix] (4 x 4). *)
Class Rigid `{FloatText} : Type := {
  RigidTransform : Type;
  from_Rt : row3 * row3 * row3 -> row3 -> RigidTransform;
  matrix : RigidTransform -> row4 * row4 * row4 * row4
}.

Section Poses.
Context {FT : FloatText} {R : Rigid}.

(** [(x.matrix[:3,:4]).flatten()] *)
Definition flatten34 (x : RigidTransform) : list F :=
  let '(r0, r1, r2, _) := matrix x in
  let '(a0, a1, a2, a3) := r0 in
  let '(b0, b1, b2, b3) := r1 in
  let '(c0, c1, c2, c3) := r2 in
  [a0; a1; a2; a3; b0; b1; b2; b3; c0; c1; c2; c3].

(** [kitti_poses_to_str] *)
Definition kitti_poses_to_str (poses : list RigidTransform) : string :=
  String.concat (String "013" (String "010" EmptyString))
    (map (fun x => String.concat " " (map float_str (flatten34 x))) poses).

(** The items of a text: its maximal runs of characters that are not
    white space. *)
Fixpoint items (cur : list ascii) (s : list ascii) : list string :=
  match s with
  | [] => match cur with [] => [] | _ => [string_of_list_ascii (rev cur)] end
  | c :: r =>
      if Py.is_space c then
        match cur with
        | [] => items [] r
        | _ => string_of_list_ascii (rev cur) :: items [] r
        end
      else items (c :: cur) r
  end.

(** The run of characters up to the next white space, and the rest. *)
Fixpoint split_run (s : list ascii) : list ascii * list ascii :=
  match s with
  | [] => ([], [])
  | c :: r =>
      if Py.is_space c then ([], s)
      else let '(run, rest) := split_run r in (c :: run, rest)
  end.

(** The reader of [np.fromfile(.., sep=' ')]: it skips white space, reads
    the number at the head of what follows and goes on right behind it,
    the separator matching no white space as well; where no number can be
    read it stops and keeps what it has.  [fuel] bounds the number of
    reads. *)
Fixpoint read_numbers (fuel : nat) (s : list ascii) : list F :=
  match fuel with
  | O => []
  | S k =>
      let '(run, rest) := split_run (Py.lstrip s) in
      match run with
      | [] => []
      | _ =>
          match float_head (string_of_list_ascii run) with
          | None => []
          | Some (x, unread) =>
              let u := list_ascii_of_string unread in
              if (List.length u <? List.length run)%nat
              then x :: read_numbers k (u ++ rest)
              else [x]
          end
      end
  end.

(** [np.fromfile(fn, dtype=np.float64, sep=' ')] on the content of the
    file; every read takes at least one character. *)
Definition np_fromfile (content : string) : list F :=
  read_numbers (S (List.length (list_ascii_of_string content)))
               (list_ascii_of_string content).

(** [.reshape(-1,12)], each row then [.reshape(3,4)] and cut into
    [p[:3,:3]] and [p[:3,3]]. *)
Fixpoint reshape_12 (l : list F) : outcome (list (row3 * row3 * row3 * row3)) :=
  match l with
  | [] => Ok []
  | a0 :: a1 :: a2 :: a3 :: b0 :: b1 :: b2 :: b3 :: c0 :: c1 :: c2 :: c3 :: rest =>
      match reshape_12 rest with
      | Ok rows => Ok (((a0, a1, a2), (b0, b1, b2), (c0, c1, c2), (a3, b3, c3)) :: rows)
      | Raise e => Raise e
      end
  | _ => Raise ValueError
  end.

(** [kitti_load_poses]; [fs] is the file system, a missing file is an
    [IOError]. *)
Definition kitti_load_poses (fs : string -> option string) (fn : string)
  : outcome (list RigidTransform) :=
  match fs fn with
  | None => Raise IOError
  | Some content =>
      match reshape_12 (np_fromfile content) with
      | Raise e => Raise e
      | Ok rows => Ok (map (fun p => from_Rt (fst p) (snd p)) rows)
      end
  end.

(** A text the reader takes as one item: not empty and free of white
    space. *)
Definition is_item (s : string) : bool :=
  match list_ascii_of_string s with
  | [] => false
  | l => forallb (fun c => negb (Py.is_space c)) l
  end.

(** The pose built from the rotation and translation blocks of
    [x.matrix], each entry taken through [reread]. *)
Definition reread_pose (reread : F -> F) (x : RigidTransform) : RigidTransform :=
  let '(r0, r1, r2, _) := matrix x in
  let '(a0, a1, a2, a3) := r0 in
  let '(b0, b1, b2, b3) := r1 in
  let '(c0, c1, c2, c3) := r2 in
  from_Rt ((reread a0, reread a1, reread a2),
           (reread b0, reread b1, reread b2),
           (reread c0, reread c1, reread c2))
          (reread a3, reread b3, reread c3).

End Poses.

End Kitti.

(** ** kitti.py: dataset composers *)

Module Composer.

(** The readers of [pybot.utils.dataset_readers] and the file operations
    the constructors call.  A constructor may raise; [iteritems] gives
    the records of a reader in order.  A stereo reader is built from its
    directory and two templates, the other keyword arguments of the call
    being passed through unchanged. *)
Class Readers : Type := {
  Img : Type;
  PointCloud : Type;
  PoseItem : Type;
  StereoDatasetReader : Type;
  FileReader : Type;
  VelodyneDatasetReader : Type;
  DatasetReader : Type;
  ImageDatasetReader : Type;
  os_path_join : list string -> string;
  os_path_expanduser : string -> string;
  new_StereoDatasetReader : string -> string -> string -> outcome StereoDatasetReader;
  new_FileReader : string -> outcome FileReader;
  new_VelodyneDatasetReader : string -> Z -> Z -> outcome VelodyneDatasetReader;
  new_DatasetReader : string -> outcome DatasetReader;
  new_ImageDatasetReader : string -> outcome ImageDatasetReader;
  (* [[line.split(':')[0] for line in open(fn)]] *)
  read_field_names : string -> outcome (list string);
  stereo_iteritems : StereoDatasetReader -> list (Img * Img);
  file_iteritems : FileReader -> list PoseItem;
  velodyne_iteritems : VelodyneDatasetReader -> list PointCloud
}.

(** What an optional modality attribute holds: a reader, or
    [itertools.repeat(None)]. *)
Inductive source (R : Type) : Type :=
| Reader (r : R)
| RepeatNone.
Arguments Reader {R} r.
Arguments RepeatNone {R}.

(** [try: c except Exception: repeat(None)] *)
Definition or_repeat_none {R} (c : outcome R) : source R :=
  match c with Ok r => Reader r | Raise _ => RepeatNone end.

Section Composers.
Context {RD : Readers}.

Record Args : Type := {
  directory : string;
  sequence : string;
  left_template : string;
  right_template : string;
  velodyne_template : string;
  oxt_template : string;
  start_idx : Z;
  max_files : Z;
  scale : Q
}.

Record KITTIDatasetReader : Type := {
  calib : Kitti.StereoCamera;
  stereo : StereoDatasetReader;
  poses : source FileReader;
  velodyne : source VelodyneDatasetReader
}.

Definition pose_fn (a : Args) : string :=
  os_path_join [os_path_expanduser (directory a); "poses"; sequence a ++ ".txt"]%string.

(** [KITTIDatasetReader.__init__] *)
Definition KITTIDatasetReader_init (a : Args) : outcome KITTIDatasetReader :=
  match Kitti.kitti_stereo_calib (sequence a) (scale a) with
  | Raise e => Raise e
  | Ok c =>
      let seq_directory :=
        os_path_join [os_path_expanduser (directory a); "sequences"; sequence a] in
      match new_StereoDatasetReader seq_directory
              (os_path_join [seq_directory; left_template a])
              (os_path_join [seq_directory; right_template a]) with
      | Raise e => Raise e
      | Ok st =>
          let p := or_repeat_none (new_FileReader (pose_fn a)) in
          let v := or_repeat_none
                     (new_VelodyneDatasetReader
                        (os_path_join [seq_directory; velodyne_template a])
                        (start_idx a) (max_files a)) in
          Ok {| calib := c; stereo := st; poses := p; velodyne := v |}
      end
  end.

Record KITTIRawDatasetReader : Type := {
  raw_calib : Kitti.StereoCamera;
  raw_stereo : StereoDatasetReader;
  raw_poses : source FileReader;
  raw_velodyne : VelodyneDatasetReader;
  (* [None] while the attribute is not set *)
  oxt_formats : option (list string);
  oxts : source DatasetReader
}.

(** [KITTIRawDatasetReader.__init__]: the base constructor, then the
    attributes it assigns again. *)
Definition KITTIRawDatasetReader_init (a : Args) : outcome KITTIRawDatasetReader :=
  match KITTIDatasetReader_init a with
  | Raise e => Raise e
  | Ok base =>
      match new_StereoDatasetReader (directory a) (left_template a) (right_template a) with
      | Raise e => Raise e
      | Ok st =>
          let p := or_repeat_none (new_FileReader (pose_fn a)) in
          match new_VelodyneDatasetReader
                  (os_path_join [directory a; velodyne_template a])
                  (start_idx a) (max_files a) with
          | Raise e => Raise e
          | Ok v =>
              let '(fmts, ox) :=
                match read_field_names
                        (os_path_join [os_path_expanduser (directory a);
                                       "oxts/dataformat.txt"]) with
                | Raise _ => (None, RepeatNone)
                | Ok names =>
                    (Some names,
                     or_repeat_none
                       (new_DatasetReader
                          (os_path_join [os_path_expanduser (directory a);
                                         oxt_template a])))
                end in
              Ok {| raw_calib := calib base; raw_stereo := st; raw_poses := p;
                    raw_velodyne := v; oxt_formats := fmts; oxts := ox |}
          end
      end
  end.

Record KITTIStereoGroundTruthDatasetReader : Type := {
  gt_stereo : StereoDatasetReader;
  gt_noc : ImageDatasetReader;
  gt_occ : ImageDatasetReader;
  gt_calib : DatasetReader;
  gt_poses : source FileReader
}.

(** [KITTIStereoGroundTruthDatasetReader.__init__] *)
Definition KITTIStereoGroundTruthDatasetReader_init (dir : string) (is_2015 : bool)
  : outcome KITTIStereoGroundTruthDatasetReader :=
  let '(left_dir, right_dir, noc_dir, occ_dir) :=
    if is_2015 then ("image_2", "image_3", "disp_noc_0", "disp_occ_0")
    else ("image_0", "image_1", "disp_noc", "disp_occ") in
  match new_StereoDatasetReader (os_path_expanduser dir)
          (left_dir ++ "/%06i_10.png") (right_dir ++ "/%06i_10.png")%string with
  | Raise e => Raise e
  | Ok st =>
      match new_ImageDatasetReader
              (os_path_join [os_path_expanduser dir; noc_dir; "%06i_10.png"]) with
      | Raise e => Raise e
      | Ok noc =>
          match new_ImageDatasetReader
                  (os_path_join [os_path_expanduser dir; occ_dir; "%06i_10.png"]) with
          | Raise e => Raise e
          | Ok occ =>
              match new_DatasetReader
                      (os_path_join [os_path_expanduser dir; "calib/%06i.txt"]) with
              | Raise e => Raise e
              | Ok cal =>
                  Ok {| gt_stereo := st; gt_noc := noc; gt_occ := occ;
                        gt_calib := cal; gt_poses := RepeatNone |}
              end
          end
      end
  end.

(** The frame record of [iterframes]. *)
Record Frame : Type := {
  left : Img;
  right : Img;
  frame_velodyne : option PointCloud;
  pose : PoseItem
}.

(** [self.poses.iteritems()]: [itertools.repeat] has no such method. *)
Definition poses_iteritems (p : source FileReader) : outcome (list PoseItem) :=
  match p with
  | Reader r => Ok (file_iteritems r)
  | RepeatNone => Raise AttributeError
  end.

(** The generator body shared by the two [iterframes]: the frames it
    yields, then how it ends ([None] for exhaustion). *)
Definition zip_frames (st : StereoDatasetReader) (p : source FileReader)
  : list Frame * option exn :=
  match poses_iteritems p with
  | Raise e => ([], Some e)
  | Ok ps =>
      (map (fun lp => {| left := fst (fst lp); right := snd (fst lp);
                         frame_velodyne := None; pose := snd lp |})
           (combine (stereo_iteritems st) ps), None)
  end.

(** [KITTIDatasetReader.iterframes] *)
Definition iterframes (r : KITTIDatasetReader) : list Frame * option exn :=
  zip_frames (stereo r) (poses r).

(** [KITTIDatasetReader.iter_velodyne_frames]: the scans of the velodyne
    reader; [repeat(None)] has no [iteritems]. *)
Definition iter_velodyne_frames (r : KITTIDatasetReader) : outcome (list PointCloud) :=
  match velodyne r with
  | Reader v => Ok (velodyne_iteritems v)
  | RepeatNone => Raise AttributeError
  end.

(** The [velodyne_frames] property. *)
Definition velodyne_frames (r : KITTIDatasetReader) : outcome (list PointCloud) :=
  iter_velodyne_frames r.

(** [KITTIDatasetReader.iter_stereo_velodyne_frames] reads [self.left],
    an attribute no constructor sets. *)
Definition iter_stereo_velodyne_frames (r : KITTIDatasetReader)
  : outcome (list (Img * Img * PointCloud)) :=
  Raise AttributeError.

(** [KITTIStereoGroundTruthDatasetReader.iterframes] *)
Definition gt_iterframes (r : KITTIStereoGroundTruthDatasetReader)
  : list Frame * option exn :=
  zip_frames (gt_stereo r) (gt_poses r).

End Composers.

End Composer.

(** ** Vocabulary of the statements about the tracker *)

Module KLTSpec.
Section Vocabulary.

Context {V : Vision} {T : Type} {TM : TrackManager T}.

Definition outcome_of {A} (r : outcome A * KLT.OpenCVKLT T * list KLT.Event) : outcome A :=
  fst (fst r).
Definition state_of {A} (r : outcome A * KLT.OpenCVKLT T * list KLT.Event) : KLT.OpenCVKLT T :=
  snd (fst r).
Definition log_of {A} (r : outcome A * KLT.OpenCVKLT T * list KLT.Event) : list KLT.Event :=
  snd r.

(** A call to the optical-flow tracker, or a pruning [add]. *)
Definition is_propagation (e : KLT.Event) : bool :=
  match e with
  | KLT.EvTrack _ _ _ => true
  | KLT.EvTMAdd _ _ prune => prune
  | _ => false
  end.

(** The point lists handed to [add(.., ids=None, prune=False)]. *)
Fixpoint registered (log : list KLT.Event) : list (list point) :=
  match log with
  | [] => []
  | KLT.EvTMAdd pts None false :: r => pts :: registered r
  | _ :: r => registered r
  end.

(** The pixel of [pt] is a pixel of an image of the given shape. *)
Definition in_image (shape : Shape) (pt : point) : bool :=
  let '(x, y) := KLT.pixel pt in
  (0 <=? x) && (x <? cols shape) && (0 <=? y) && (y <? rows shape).

(** The points whose circles [create_mask] draws: those before the first
    one that cannot be drawn. *)
Fixpoint drawn (pts : list point) : list point :=
  match pts with
  | [] => []
  | pt :: rest => if circle_drawable (KLT.pixel pt) then pt :: drawn rest else []
  end.

(** The value at the pixel [px] = (x, y) after the radius-9 circles of
    colour 0 of the given points, drawn in order on 255. *)
Definition painted (pts : list point) (px : Z * Z) : Z :=
  fold_left (fun v p => circle_pixel 9 0 (fst px - fst (KLT.pixel p))
                                         (snd px - snd (KLT.pixel p)) v)
            pts 255.




(** Both coordinates of the pixel of [pt] are valid numpy indices for a
    mask of the given shape (negative ones wrap around). *)
Definition indexable (shape : Shape) (pt : point) : bool :=
  match Py.norm_index (rows shape) (snd (KLT.pixel pt)),
        Py.norm_index (cols shape) (fst (KLT.pixel pt)) with
  | Some _, Some _ => true
  | _, _ => false
  end.

(** No candidate, or only candidates that index the mask. *)
Definition well_indexed (shape : Shape) (d : option (list point)) : bool :=
  match d with
  | None => true
  | Some l => forallb (indexable shape) l
  end.

(** No candidate; or a frame without channels and only candidates that
    index its mask. *)
Definition selectable (shape : Shape) (d : option (list point)) : bool :=
  match d with
  | None => true
  | Some l => negb (color shape) && forallb (indexable shape) l
  end.

(** An [add] that was handed no point, or another call. *)
Definition adds_nothing (e : KLT.Event) : bool :=
  match e with
  | KLT.EvTMAdd (_ :: _) _ _ => false
  | _ => true
  end.

(** The last [n] elements of a list. *)
Definition lastn {A} (n : nat) (l : list A) : list A :=
  skipn (List.length l - n) l.

(** The preprocessed frames of a sequence of calls. *)
Definition frames (calls : list (Image * option (list point))) : list Gray :=
  map (fun c => gaussian_blur_to_gray (fst c)) calls.

End Vocabulary.
End KLTSpec.

(** ** Concrete collaborators for the examples *)

Module Demo.

(** A painter for the examples, after OpenCV's anti-aliased circle: the
    colour inside the radius, the mean of colour and old value on a rim
    one pixel wide, the old value beyond. *)
Definition soft_disk (r color dx dy old : Z) : Z :=
  let d2 := dx * dx + dy * dy in
  if d2 <=? r * r then color
  else if d2 <=? (r + 1) * (r + 1) then (old + color) / 2
  else old.

(** A centre is taken when both coordinates fit a C [int]. *)
Definition fits_int (px : Z * Z) : bool :=
  (- 2147483648 <=? fst px) && (fst px <? 2147483648)
  && (- 2147483648 <=? snd px) && (snd px <? 2147483648).

(** Frames are numbered and all 100 rows by 200 columns; frames 100 and
    up are colour frames.  Up to frame 49 the flow moves every point by
    (40, 40), from frame 50 on nothing moves; the detector finds nothing. *)
#[export] Instance vision : Vision := {
  Image := nat;
  Gray := nat;
  im_shape := fun n => {| rows := 100; cols := 200; color := Nat.leb 100 n |};
  gaussian_blur_to_gray := fun n => n;
  tracker_track := fun _ cur pts =>
    if Nat.ltb cur 50 then map (fun p => (fst p + 40, snd p + 40)%Q) pts else pts;
  detector_process := fun _ _ => [];
  circle_drawable := fits_int;
  circle_pixel := soft_disk
}.

Definition pt (x y : Z) : point := (x # 1, y # 1).


(** A fresh tracker with [max_track_length=20, min_tracks=3]. *)
Definition fresh : KLT.OpenCVKLT SpecTM.t := KLT.init 20 3.

(** The instance after frame 0 with the given candidates. *)
Definition after_first (cands : list point) : KLT.OpenCVKLT SpecTM.t :=
  KLTSpec.state_of (KLT.process 0%nat (Some cands) fresh).

(** Two tracks, at (10, 10) and (50, 50). *)
Definition two_tracks : KLT.OpenCVKLT SpecTM.t := after_first [pt 10 10; pt 50 50].

(** One track seen in two frames: at (10, 10), then at (50, 50). *)
Definition seen_twice : KLT.OpenCVKLT SpecTM.t :=
  KLTSpec.state_of (KLT.process 1%nat None (after_first [pt 10 10])).


(** Three frames, candidates supplied with the first only. *)
Definition three_calls : list (@Image vision * option (list point)) :=
  [(0%nat, Some [pt 10 10; pt 50 50]); (1%nat, None); (2%nat, None)].

(** Floats for a pose file of zeros and ones: only 0.0 and 1.0 exist,
    written as Python writes them. *)
#[export] Instance zero_one : Kitti.FloatText := {
  Kitti.F := bool;
  Kitti.float_str := fun b => if b then "1.0" else "0.0";
  Kitti.float_head := fun s =>
    match s with
    | String "1" (String "." (String "0" unread)) => Some (true, unread)
    | String "0" (String "." (String "0" unread)) => Some (false, unread)
    | _ => None
    end
}.

(** Modelled from the spec: [RigidTransform] of
    [pybot.geometry.rigid_transform], which section 3 describes as a
    rotation and a translation; its matrix is the 4 x 4 transform with
    last row 0 0 0 1. *)
#[export] Instance rotation_translation : Kitti.Rigid := {
  Kitti.RigidTransform := (Kitti.row3 * Kitti.row3 * Kitti.row3) * Kitti.row3;
  Kitti.from_Rt := fun r t => (r, t);
  Kitti.matrix := fun x =>
    let '((a0, a1, a2), (b0, b1, b2), (c0, c1, c2), (t0, t1, t2)) := x in
    ((a0, a1, a2, t0), (b0, b1, b2, t1), (c0, c1, c2, t2),
     (false, false, false, true))
}.

(** The identity pose, and the same rotation moved by one along x. *)
Definition pose_identity : Kitti.RigidTransform :=
  ((true, false, false), (false, true, false), (false, false, true),
   (false, false, false)).
Definition pose_shifted : Kitti.RigidTransform :=
  ((true, false, false), (false, true, false), (false, false, true),
   (true, false, false)).

(** A file system with one pose file. *)
Definition pose_files (fn : string) : option string :=
  if String.eqb fn "poses/00.txt"
  then Some (Kitti.kitti_poses_to_str [pose_identity; pose_shifted])
  else None.

(** A dataset directory with stereo images, poses and OXTS records but
    no velodyne scans: every velodyne reader fails to initialise.  The
    readers carry no data of their own; each yields two records. *)
#[export] Instance no_velodyne : Composer.Readers := {
  Composer.Img := nat;
  Composer.PointCloud := unit;
  Composer.PoseItem := nat;
  Composer.StereoDatasetReader := unit;
  Composer.FileReader := unit;
  Composer.VelodyneDatasetReader := unit;
  Composer.DatasetReader := unit;
  Composer.ImageDatasetReader := unit;
  Composer.os_path_join := String.concat "/";
  Composer.os_path_expanduser := fun p => p;
  Composer.new_StereoDatasetReader := fun _ _ _ => Ok tt;
  Composer.new_FileReader := fun _ => Ok tt;
  Composer.new_VelodyneDatasetReader := fun _ _ _ => Raise IOError;
  Composer.new_DatasetReader := fun _ => Ok tt;
  Composer.new_ImageDatasetReader := fun _ => Ok tt;
  Composer.read_field_names := fun _ => Ok ["lat"; "lon"; "alt"];
  Composer.stereo_iteritems := fun _ => [(0%nat, 1%nat); (2%nat, 3%nat)];
  Composer.file_iteritems := fun _ => [7%nat; 8%nat];
  Composer.velodyne_iteritems := fun _ => [tt; tt]
}.

(** [KITTIRawDatasetReader(directory, sequence='00')] with the default
    templates. *)
Definition raw_args : Composer.Args := {|
  Composer.directory := "/data/kitti";
  Composer.sequence := "00";
  Composer.left_template := "image_00/data/%010i.png";
  Composer.right_template := "image_01/data/%010i.png";
  Composer.velodyne_template := "velodyne_points/data/%010i.bin";
  Composer.oxt_template := "oxts/data/%010i.txt";
  Composer.start_idx := 0;
  Composer.max_files := 50000;
  Composer.scale := 1
|}.

End Demo.

(** ** The phases of one [process] call *)

Module Phases.
Section Phases.

Context {V : Vision} {T : Type} {TM : TrackManager T}.

(** Lines 148-151: what the propagation step does to the TrackManager,
    given the frame buffer after the push. *)
Definition propagate (m : T) (ims : list Gray) : T * list KLT.Event :=
  match ims, tm_pts m with
  | [prev; cur], Some (p :: ps) =>
      let pts := tracker_track prev cur (p :: ps) in
      (tm_add pts (Some (tm_ids m)) true m,
       [KLT.EvTrack prev cur (p :: ps); KLT.EvTMAdd pts (Some (tm_ids m)) true])
  | _, _ => (m, [])
  end.

(** Line 154: the flag after the check, from the instance on entry. *)
Definition wants_features (s : KLT.OpenCVKLT T) : bool :=
  KLT.add_features_ s || KLT.is_none (tm_pts (KLT.tm_ s))
  || KLT.below (tm_pts (KLT.tm_ s)) (KLT.min_tracks_ s).

(** Lines 162-167: the new points and the detector call, if any. *)
Definition candidates (im : Image) (d : option (list point)) (mask : Mask)
  : outcome (list point) * list KLT.Event :=
  match d with
  | None => (Ok (detector_process (gaussian_blur_to_gray im) mask),
             [KLT.EvDetect (gaussian_blur_to_gray im) mask])
  | Some l => (KLT.select_valid mask l, [])
  end.

Definition process_phases (im : Image) (d : option (list point)) (s : KLT.OpenCVKLT T)
  : outcome (list Z * option (list point)) * KLT.OpenCVKLT T * list KLT.Event :=
  let ims := Py.deque_append 2 (KLT.ims_ s) (gaussian_blur_to_gray im) in
  let mk m b := {| KLT.tm_ := m; KLT.min_tracks_ := KLT.min_tracks_ s;
                   KLT.ims_ := ims; KLT.add_features_ := b |} in
  let '(m1, log1) := propagate (KLT.tm_ s) ims in
  if wants_features s then
    let mask := KLT.create_mask (im_shape im) (tm_pts (KLT.tm_ s)) in
    match candidates im d mask with
    | (Raise e, l) => (Raise e, mk m1 true, log1 ++ KLT.EvImshow mask :: l)
    | (Ok new_pts, l) =>
        let m2 := tm_add new_pts None false m1 in
        (Ok (tm_ids m2, tm_pts m2), mk m2 false,
         log1 ++ KLT.EvImshow mask :: l ++ [KLT.EvTMAdd new_pts None false])
    end
  else (Ok (tm_ids m1, tm_pts m1), mk m1 false, log1).

End Phases.
End Phases.


(** ** Further vocabulary for the tracker *)

Module KLTSpecMore.
Section Vocabulary.

Context {V : Vision} {T : Type} {TM : TrackManager T}.

(** The subscript [l[i]] exists. *)
Definition has_item {A} (l : list A) (i : Z) : bool :=
  match Py.getitem l i with
  | Ok _ => true
  | Raise _ => false
  end.

(** The guard of [matches]: more observations than the absolute value of
    either offset. *)
Definition guard (index1 index2 : Z) (e : Z * list point) : bool :=
  (Py.len (snd e) >? Z.abs index1) && (Py.len (snd e) >? Z.abs index2).

(** The subscript whose existence the guard of [matches] decides for the
    offset [i]: [i] itself when it is not negative, one further from the
    end when it is. *)
Definition guarded_offset (i : Z) : Z := if 0 <=? i then i else i - 1.

(** The pixel of the mask that numpy reads for the index pair (x, y):
    a negative index counts from the opposite edge. *)
Definition wrapped (shape : Shape) (px : Z * Z) : Z * Z :=
  (fst px mod cols shape, snd px mod rows shape).

(** The instance after [reset()]. *)
Definition after_reset (s : KLT.OpenCVKLT T) : KLT.OpenCVKLT T :=
  KLTSpec.state_of (KLT.reset s).

End Vocabulary.
End KLTSpecMore.


(** ** kitti.py: the pose matrix *)

Module KittiMore.
Section Poses.
Context {FT : Kitti.FloatText} {R : Kitti.Rigid}.

(** [kitti_poses_to_mat]: one row of twelve entries per pose;
    [np.vstack] of no array at all is a [ValueError], and the cast to
    [float64] leaves floats as they are. *)
Definition kitti_poses_to_mat (poses : list Kitti.RigidTransform)
  : outcome (list (list Kitti.F)) :=
  match poses with
  | [] => Raise ValueError
  | _ => Ok (map Kitti.flatten34 poses)
  end.

(** One line of a pose file. *)
Definition line_of (row : list Kitti.F) : string :=
  String.concat " " (map Kitti.float_str row).

End Poses.
End KittiMore.

(** ** kitti.py: the other iterators of the composers *)

Module ComposerMore.

(** What the readers of the ground-truth and raw composers yield, and the
    disparity conversion [(x/256).astype(np.float32)]. *)
Class ReaderItems {RD : Composer.Readers} : Type := {
  Disparity : Type;
  CalibItem : Type;
  OxtValue : Type;
  disparity : Composer.Img -> Disparity;
  image_iteritems : Composer.ImageDatasetReader -> list Composer.Img;
  calib_iteritems : Composer.DatasetReader -> list CalibItem;
  oxts_iteritems : Composer.DatasetReader -> list (list OxtValue)
}.

Section Iterators.
Context {RD : Composer.Readers} {RI : ReaderItems}.
Import Composer.

(** [KITTIDatasetReader.iter_gt_frames] *)
Definition iter_gt_frames (r : KITTIDatasetReader) : list Frame * option exn :=
  zip_frames (stereo r) (poses r).

(** The record of [KITTIStereoGroundTruthDatasetReader.iter_gt_frames]. *)
Record GTFrame : Type := {
  gt_left : Img;
  gt_right : Img;
  gt_depth : Disparity;
  gt_frame_noc : Disparity;
  gt_frame_occ : Disparity;
  gt_frame_calib : CalibItem;
  gt_pose : option PoseItem
}.

(** [izip] of four sequences stops with the shortest. *)
Fixpoint zip4 {A B C D} (a : list A) (b : list B) (c : list C) (d : list D)
  : list (A * B * C * D) :=
  match a, b, c, d with
  | x :: a', y :: b', z :: c', w :: d' => (x, y, z, w) :: zip4 a' b' c' d'
  | _, _, _, _ => []
  end.

(** [KITTIStereoGroundTruthDatasetReader.iter_gt_frames] *)
Definition gt_iter_gt_frames (g : KITTIStereoGroundTruthDatasetReader) : list GTFrame :=
  map (fun t =>
         let '(lr, noc, occ, cal) := t in
         {| gt_left := fst lr; gt_right := snd lr;
            gt_depth := disparity occ;
            gt_frame_noc := disparity noc;
            gt_frame_occ := disparity occ;
            gt_frame_calib := cal; gt_pose := None |})
      (zip4 (stereo_iteritems (gt_stereo g)) (image_iteritems (gt_noc g))
            (image_iteritems (gt_occ g)) (calib_iteritems (gt_calib g))).

(** The record of [KITTIRawDatasetReader.iterframes]; [raw_oxt] is the
    list of pairs handed to [AttrDict]. *)
Record RawFrame : Type := {
  raw_left : Img;
  raw_right : Img;
  raw_frame_velodyne : option PointCloud;
  raw_pose : PoseItem;
  raw_oxt : list (string * OxtValue)
}.

(** [self.oxts.iteritems()] *)
Definition oxts_source_iteritems (o : source DatasetReader) : outcome (list (list OxtValue)) :=
  match o with
  | Reader r => Ok (oxts_iteritems r)
  | RepeatNone => Raise AttributeError
  end.

(** [izip] of three sequences. *)
Fixpoint zip3 {A B C} (a : list A) (b : list B) (c : list C) : list (A * B * C) :=
  match a, b, c with
  | x :: a', y :: b', z :: c' => (x, y, z) :: zip3 a' b' c'
  | _, _, _ => []
  end.

(** [KITTIRawDatasetReader.iterframes]: the arguments of [izip] are
    evaluated before the first frame; [self.oxt_formats] is read in the
    body, for each frame. *)
Definition raw_iterframes (r : KITTIRawDatasetReader) : list RawFrame * option exn :=
  match poses_iteritems (raw_poses r) with
  | Raise e => ([], Some e)
  | Ok ps =>
      match oxts_source_iteritems (oxts r) with
      | Raise e => ([], Some e)
      | Ok os =>
          match zip3 (stereo_iteritems (raw_stereo r)) ps os with
          | [] => ([], None)
          | frames =>
              match oxt_formats r with
              | None => ([], Some AttributeError)
              | Some names =>
                  (map (fun t =>
                          let '(lr, p, o) := t in
                          {| raw_left := fst lr; raw_right := snd lr;
                             raw_frame_velodyne := None; raw_pose := p;
                             raw_oxt := combine names o |})
                       frames, None)
              end
          end
      end
  end.

(** [KITTIRawDatasetReader.oxt_fieldnames] *)
Definition oxt_fieldnames (r : KITTIRawDatasetReader) : outcome (list string) :=
  match oxt_formats r with
  | Some names => Ok names
  | None => Raise AttributeError
  end.

End Iterators.
End ComposerMore.


(** ** base_klt.py: drawing the tracks *)

Module Draw.

(** [colormap] of [bot_utils.plot_utils]: the wheel is
    [colormap(np.linspace(0, 1, 20))], [colormap_of] its value on an
    [int32] array. *)
Class Palette : Type := {
  Color : Type;
  colormap_wheel : list Color;
  colormap_of : list Z -> list Color
}.

Section Drawing.
Context {V : Vision} {T : Type} {TM : TrackManager T} {P : Palette}.

(** The colour handed to OpenCV: a constant, or [tuple(map(int, col))] of
    a row of the colour map. *)
Inductive DrawColor : Type :=
| Fixed (c0 c1 c2 : Z)
| OfMap (col : Color).

(** The drawing calls on [out]. *)
Inductive Drawn : Type :=
| Polylines (pts : list (Z * Z)) (color : DrawColor)
| Rectangle (tl br : point) (color : DrawColor).

(** The list comprehension [[cwheel[tid % N] for .. in tracks]] with
    [N = 20]; Python's [%] with a positive modulus is never negative. *)
Fixpoint wheel_rows (tracks : list (Z * list point)) : outcome (list Color) :=
  match tracks with
  | [] => Ok []
  | (tid, _) :: rest =>
      match Py.getitem colormap_wheel (tid mod 20) with
      | Raise e => Raise e
      | Ok col =>
          match wheel_rows rest with
          | Raise e => Raise e
          | Ok cols => Ok (col :: cols)
          end
      end
  end.

(** The colours of [draw_tracks], one per track; [np.vstack] of an empty
    list is a [ValueError], and so is a colour type that is neither
    ['age'] nor ['unique']. *)
Definition track_colors (color_type : string) (tracks : list (Z * list point))
  : outcome (list Color) :=
  if String.eqb color_type "age" then
    match wheel_rows tracks with
    | Raise e => Raise e
    | Ok [] => Raise ValueError
    | Ok cols => Ok cols
    end
  else if String.eqb color_type "unique" then
    Ok (colormap_of (map (fun e => Py.len (snd e)) tracks))
  else Raise ValueError.

(** [pt - 2] and [pt + 2] on a point. *)
Definition shift (pt : point) (d : Q) : point := ((fst pt + d)%Q, (snd pt + d)%Q).

(** The loop of [draw_tracks] over [zip(cols, tracks.values())]: the
    polyline through the observations cast to [int32], then the filled
    rectangle around the latest one.  What was drawn before a raise stays
    drawn. *)
Fixpoint draw_loop (colored : bool) (pairs : list (Color * list point))
  : outcome unit * list Drawn :=
  match pairs with
  | [] => (Ok tt, [])
  | (col, pts) :: rest =>
      match rev pts with
      | [] => (Raise ValueError, [])
      | latest :: _ =>
          let '(o, drawn) := draw_loop colored rest in
          (o, Polylines (map KLT.pixel pts) (if colored then OfMap col else Fixed 0 255 0)
              :: Rectangle (shift latest (-2)) (shift latest 2) (Fixed 0 255 0)
              :: drawn)
      end
  end.

(** [BaseKLT.draw_tracks] *)
Definition draw_tracks (colored : bool) (color_type : string) (s : KLT.OpenCVKLT T)
  : outcome unit * list Drawn :=
  match track_colors color_type (tm_tracks (KLT.tm_ s)) with
  | Raise e => (Raise e, [])
  | Ok cols => draw_loop colored (combine cols (map snd (tm_tracks (KLT.tm_ s))))
  end.

(** What [draw_tracks] draws for one track in colour [col]. *)
Definition track_drawing (colored : bool) (col : Color) (pts : list point) : list Drawn :=
  match rev pts with
  | [] => []
  | latest :: _ =>
      [Polylines (map KLT.pixel pts) (if colored then OfMap col else Fixed 0 255 0);
       Rectangle (shift latest (-2)) (shift latest 2) (Fixed 0 255 0)]
  end.

(** Green, or a polyline in a colour of the map when [colored]. *)
Definition expected_color (colored : bool) (d : Drawn) : Prop :=
  match d with
  | Rectangle _ _ c => c = Fixed 0 255 0
  | Polylines _ c => if colored then exists col, c = OfMap col else c = Fixed 0 255 0
  end.

End Drawing.
End Draw.


(** ** Further concrete instances *)

Module DemoMore.
Import Demo.

(** Three tracks, as many as [min_tracks]. *)
Definition three_tracks : KLT.OpenCVKLT SpecTM.t :=
  after_first [pt 10 10; pt 50 50; pt 90 90].

(** Dataset directories in which chosen parts are missing: the pose file,
    the velodyne scans, the OXTS format file or the OXTS records.  A reader
    that is built yields two records. *)
Definition dataset (has_poses has_velodyne has_format has_oxts : bool) : Composer.Readers := {|
  Composer.Img := nat;
  Composer.PointCloud := unit;
  Composer.PoseItem := nat;
  Composer.StereoDatasetReader := unit;
  Composer.FileReader := unit;
  Composer.VelodyneDatasetReader := unit;
  Composer.DatasetReader := unit;
  Composer.ImageDatasetReader := unit;
  Composer.os_path_join := String.concat "/";
  Composer.os_path_expanduser := fun p => p;
  Composer.new_StereoDatasetReader := fun _ _ _ => Ok tt;
  Composer.new_FileReader := fun _ => if has_poses then Ok tt else Raise IOError;
  Composer.new_VelodyneDatasetReader :=
    fun _ _ _ => if has_velodyne then Ok tt else Raise IOError;
  Composer.new_DatasetReader := fun _ => if has_oxts then Ok tt else Raise IOError;
  Composer.new_ImageDatasetReader := fun _ => Ok tt;
  Composer.read_field_names :=
    fun _ => if has_format then Ok ["lat"; "lon"; "alt"] else Raise IOError;
  Composer.stereo_iteritems := fun _ => [(0%nat, 1%nat); (2%nat, 3%nat)];
  Composer.file_iteritems := fun _ => [7%nat; 8%nat; 9%nat];
  Composer.velodyne_iteritems := fun _ => [tt; tt]
|}.

(** Disparities are kept as the images they come from; an OXTS record has
    two values, one fewer than the format file has names. *)
Definition items_of (rd : Composer.Readers) : @ComposerMore.ReaderItems rd := {|
  ComposerMore.Disparity := @Composer.Img rd;
  ComposerMore.CalibItem := nat;
  ComposerMore.OxtValue := Z;
  ComposerMore.disparity := fun x => x;
  ComposerMore.image_iteritems := fun _ => [];
  ComposerMore.calib_iteritems := fun _ => [];
  ComposerMore.oxts_iteritems := fun _ => [[49; 8]; [50; 9]]
|}.

(** A colour map whose colours are numbered: the wheel holds the twenty
    numbers 0 to 19, and a value is mapped to itself. *)
#[export] Instance numbered_colors : Draw.Palette := {
  Draw.Color := nat;
  Draw.colormap_wheel := seq 0 20;
  Draw.colormap_of := map Z.to_nat
}.

(** The constructor arguments with the default sequence, the empty
    string. *)
Definition default_sequence_args : Composer.Args := {|
  Composer.directory := "/data/kitti";
  Composer.sequence := "";
  Composer.left_template := "image_0/%06i.png";
  Composer.right_template := "image_1/%06i.png";
  Composer.velodyne_template := "velodyne/%06i.bin";
  Composer.oxt_template := "oxts/data/%010i.txt";
  Composer.start_idx := 0;
  Composer.max_files := 50000;
  Composer.scale := 1
|}.

End DemoMore.

(** * Properties of the tracker *)

Module KLTProofs.
Section Proofs.

Context {V : Vision} {T : Type} {TM : TrackManager T}.
Import KLTSpec Phases.

Lemma len_two {A} (l : list A) :
  (Py.len l =? 2) = match l with [_; _] => true | _ => false end.
Proof.
  unfold Py.len.
  destruct l as [|a [|b [|c l]]]; try reflexivity.
  apply Z.eqb_neq. cbn [List.length]. lia.
Qed.

(** After a push the buffer of length two ends with the pushed frame. *)
Lemma deque2_cases {A} (l : list A) (x : A) :
  Py.deque_append 2 l x = [x] \/ exists a, Py.deque_append 2 l x = [a; x].
Proof.
  unfold Py.deque_append.
  induction l as [|a l IH] using rev_ind.
  - left. reflexivity.
  - right. exists a. rewrite length_app. cbn [List.length].
    replace (List.length l + 1 + 1 - 2)%nat with (List.length l) by lia.
    rewrite <- app_assoc. rewrite skipn_app, skipn_all, Nat.sub_diag. reflexivity.
Qed.

(** The monadic body of [process] computes what its phases describe. *)
Lemma process_phases_eq (im : Image) (d : option (list point)) (s : KLT.OpenCVKLT T) :
  KLT.process im d s = process_phases im d s.
Proof.
  destruct s as [m mt ims af].
  unfold process_phases, propagate, wants_features, candidates.
  cbv beta iota zeta delta
    [KLT.process KLT.bind KLT.get KLT.put KLT.emit KLT.lift KLT.ret KLT.set_ims
     KLT.set_add_features KLT.call_tm_add KLT.ims_ KLT.tm_ KLT.min_tracks_
     KLT.add_features_].
  rewrite len_two.
  destruct (deque2_cases ims (gaussian_blur_to_gray im)) as [E | [a E]]; rewrite E.
  all: destruct (tm_pts m) as [[|p ps]|] eqn:Hp;
    destruct (af || _ || _); destruct d as [d0|];
    try destruct (KLT.select_valid _ d0);
    cbn; rewrite ?Hp; reflexivity.
Qed.

Lemma propagate_log_all (m : T) (ims : list Gray) :
  filter is_propagation (snd (propagate m ims)) = snd (propagate m ims).
Proof.
  unfold propagate.
  destruct ims as [|a [|b [|c l]]]; try reflexivity.
  destruct (tm_pts m) as [[|p ps]|]; reflexivity.
Qed.

Lemma candidates_log_quiet (im : Image) (d : option (list point)) (mask : Mask) :
  filter is_propagation (snd (candidates im d mask)) = []
  /\ registered (snd (candidates im d mask)) = [].
Proof. destruct d; split; reflexivity. Qed.

Lemma registered_app (l1 l2 : list KLT.Event) :
  registered (l1 ++ l2) = registered l1 ++ registered l2.
Proof.
  induction l1 as [|e l1 IH]; [reflexivity|].
  destruct e as [| | |pts [ids|] [|]]; cbn; rewrite IH; reflexivity.
Qed.

Lemma propagate_registers_nothing (m : T) (ims : list Gray) :
  registered (snd (propagate m ims)) = [].
Proof.
  unfold propagate.
  destruct ims as [|a [|b [|c l]]]; try reflexivity.
  destruct (tm_pts m) as [[|p ps]|]; reflexivity.
Qed.

(** The log of a call: the propagation step, then the replenish step. *)
Lemma process_log (im : Image) (d : option (list point)) (s : KLT.OpenCVKLT T) :
  exists tail,
    log_of (KLT.process im d s) =
    snd (propagate (KLT.tm_ s)
           (Py.deque_append 2 (KLT.ims_ s) (gaussian_blur_to_gray im))) ++ tail
    /\ filter is_propagation tail = [].
Proof.
  rewrite process_phases_eq. unfold process_phases, log_of.
  destruct (propagate _ _) as [m1 log1]. cbn [snd].
  destruct (wants_features s).
  - destruct (candidates im d _) as [[new_pts|e] l] eqn:E;
      pose proof (proj1 (candidates_log_quiet im d
        (KLT.create_mask (im_shape im) (tm_pts (KLT.tm_ s))))) as Q;
      rewrite E in Q; cbn [snd] in Q; cbn [snd];
      eexists; (split; [reflexivity|]).
    + cbn [filter is_propagation]. rewrite filter_app, Q. reflexivity.
    + cbn [filter is_propagation]. exact Q.
  - exists []. rewrite app_nil_r. split; reflexivity.
Qed.

(** The tracker calls and pruning updates of one call. *)
Lemma propagation_calls
  (s : KLT.OpenCVKLT T) (im : Image) (d : option (list point)) :
  filter is_propagation (log_of (KLT.process im d s)) =
  match Py.deque_append 2 (KLT.ims_ s) (gaussian_blur_to_gray im),
        tm_pts (KLT.tm_ s) with
  | [prev; cur], Some (p :: ps) =>
      [KLT.EvTrack prev cur (p :: ps);
       KLT.EvTMAdd (tracker_track prev cur (p :: ps)) (Some (tm_ids (KLT.tm_ s))) true]
  | _, _ => []
  end.
Proof.
  destruct (process_log im d s) as [tail [E Q]].
  rewrite E, filter_app, Q, app_nil_r, propagate_log_all.
  unfold propagate.
  destruct (Py.deque_append 2 _ _) as [|a [|b [|c l]]]; try reflexivity.
  destruct (tm_pts (KLT.tm_ s)) as [[|p ps]|]; reflexivity.
Qed.

(** C2: the optical-flow tracker is called, and the TrackManager updated
    with [prune=True], exactly when the buffer holds two frames after
    the push and there are points from the previous call; the call is
    on the previous and the current frame with the previous points, and
    the update carries the propagated points and the previous ids. *)
Theorem C2_propagation_calls
  (s : KLT.OpenCVKLT T) (im : Image) (d : option (list point)) :
  filter is_propagation (log_of (KLT.process im d s)) =
  match Py.deque_append 2 (KLT.ims_ s) (gaussian_blur_to_gray im),
        tm_pts (KLT.tm_ s) with
  | [prev; cur], Some (p :: ps) =>
      [KLT.EvTrack prev cur (p :: ps);
       KLT.EvTMAdd (tracker_track prev cur (p :: ps)) (Some (tm_ids (KLT.tm_ s))) true]
  | _, _ => []
  end.
Proof. apply propagation_calls. Qed.


Lemma process_state (im : Image) (d : option (list point)) (s : KLT.OpenCVKLT T) :
  KLT.ims_ (state_of (KLT.process im d s)) =
    Py.deque_append 2 (KLT.ims_ s) (gaussian_blur_to_gray im)
  /\ KLT.min_tracks_ (state_of (KLT.process im d s)) = KLT.min_tracks_ s.
Proof.
  rewrite process_phases_eq. unfold process_phases, state_of.
  destruct (propagate _ _) as [m1 log1].
  destruct (wants_features s); [|split; reflexivity].
  destruct (candidates im d _) as [[new_pts|e] l]; split; reflexivity.
Qed.

(** C1 (as the code has it): the flag does not outlive a call that
    returns.  A call that finds the flag set, or sets it because the
    points on entry are none or fewer than [min_tracks], hands its new
    points to [add(.., ids=None, prune=False)] once and clears the flag,
    whatever the number of new points; a call that does not want
    features registers nothing; the flag is still set only after a call
    that raised before the registration. *)
Theorem C1_flag_cleared_by_replenish_step
  (s : KLT.OpenCVKLT T) (im : Image) (d : option (list point)) :
  let r := KLT.process im d s in
  match outcome_of r with
  | Ok _ =>
      KLT.add_features_ (state_of r) = false
      /\ (if wants_features s
          then exists new_pts, registered (log_of r) = [new_pts]
          else registered (log_of r) = [])
  | Raise _ =>
      wants_features s = true
      /\ KLT.add_features_ (state_of r) = true
      /\ registered (log_of r) = []
  end.
Proof.
  cbv zeta. rewrite process_phases_eq.
  unfold process_phases, outcome_of, state_of, log_of.
  pose proof (propagate_registers_nothing (KLT.tm_ s)
    (Py.deque_append 2 (KLT.ims_ s) (gaussian_blur_to_gray im))) as P.
  destruct (propagate _ _) as [m1 log1]. cbn [snd] in P.
  destruct (wants_features s).
  - pose proof (proj2 (candidates_log_quiet im d
      (KLT.create_mask (im_shape im) (tm_pts (KLT.tm_ s))))) as Q.
    destruct (candidates im d _) as [[new_pts|e] l]; cbn [snd] in Q; cbn [fst snd KLT.add_features_].
    + split; [reflexivity|]. exists new_pts.
      change (KLT.EvImshow ?m :: l ++ ?t) with ([KLT.EvImshow m] ++ l ++ t).
      rewrite !registered_app, P, Q. reflexivity.
    + split; [reflexivity|]. split; [reflexivity|].
      change (KLT.EvImshow ?m :: l) with ([KLT.EvImshow m] ++ l).
      rewrite !registered_app, P, Q. reflexivity.
  - cbn [fst snd KLT.add_features_]. split; [reflexivity | exact P].
Qed.

Lemma lastn_short {A} (n : nat) (l : list A) :
  (List.length l <= n)%nat -> lastn n l = l.
Proof.
  intros H. unfold lastn.
  replace (List.length l - n)%nat with 0%nat by lia. reflexivity.
Qed.

Lemma lastn_length {A} (n : nat) (l : list A) :
  (List.length (lastn n l) <= n)%nat.
Proof. unfold lastn. rewrite length_skipn. lia. Qed.

(** Pushing on the last two of a history gives the last two of the
    extended history. *)
Lemma lastn_push {A} (l : list A) (x : A) :
  Py.deque_append 2 (lastn 2 l) x = lastn 2 (l ++ [x]).
Proof.
  unfold Py.deque_append, lastn.
  rewrite length_skipn, length_app. cbn [List.length].
  destruct (Nat.le_gt_cases (List.length l) 1) as [H | H].
  - replace (List.length l - 2)%nat with 0%nat by lia.
    rewrite skipn_0. f_equal. lia.
  - replace (skipn (List.length l - 2) l ++ [x])
      with (skipn (List.length l - 2) (l ++ [x])).
    + rewrite skipn_skipn. f_equal. lia.
    + rewrite skipn_app.
      replace (List.length l - 2 - List.length l)%nat with 0%nat by lia.
      reflexivity.
Qed.

Lemma run_cons (im : Image) (d : option (list point))
  (rest : list (Image * option (list point))) (s : KLT.OpenCVKLT T) :
  KLT.run ((im, d) :: rest) s =
  (fst (KLT.run rest (state_of (KLT.process im d s))),
   log_of (KLT.process im d s) :: snd (KLT.run rest (state_of (KLT.process im d s)))).
Proof.
  cbn [KLT.run]. unfold state_of, log_of.
  destruct (KLT.process im d s) as [[o s1] log]. cbn [fst snd].
  destruct (KLT.run rest s1). reflexivity.
Qed.

Lemma run_ims (calls : list (Image * option (list point))) :
  forall (s : KLT.OpenCVKLT T) (past : list Gray),
    KLT.ims_ s = lastn 2 past ->
    KLT.ims_ (fst (KLT.run calls s)) = lastn 2 (past ++ frames calls).
Proof.
  induction calls as [|[im d] rest IH]; intros s past H.
  - cbn. rewrite app_nil_r. exact H.
  - rewrite run_cons. cbn [fst frames map].
    change (past ++ gaussian_blur_to_gray im :: map _ rest)
      with (past ++ [gaussian_blur_to_gray im] ++ frames rest).
    rewrite app_assoc. apply IH.
    rewrite (proj1 (process_state im d s)), H. apply lastn_push.
Qed.

(** A tracker call of one [process] is on the two buffered frames. *)
Lemma track_event_frames (im : Image) (d : option (list point)) (s : KLT.OpenCVKLT T)
  (prev cur : Gray) (ppts : list point) :
  In (KLT.EvTrack prev cur ppts) (log_of (KLT.process im d s)) ->
  Py.deque_append 2 (KLT.ims_ s) (gaussian_blur_to_gray im) = [prev; cur].
Proof.
  intros H.
  assert (F : In (KLT.EvTrack prev cur ppts)
                (filter is_propagation (log_of (KLT.process im d s)))).
  { apply filter_In. split; [exact H | reflexivity]. }
  rewrite propagation_calls in F.
  destruct (Py.deque_append 2 _ _) as [|a [|b [|c l]]]; try contradiction.
  destruct (tm_pts (KLT.tm_ s)) as [[|p ps]|]; try contradiction.
  destruct F as [F | [F | []]]; [|discriminate].
  injection F as -> -> _. reflexivity.
Qed.

Lemma run_track_frames (calls : list (Image * option (list point))) :
  forall (s : KLT.OpenCVKLT T) (past : list Gray) (i : nat) (log : list KLT.Event)
         (prev cur : Gray) (ppts : list point),
    KLT.ims_ s = lastn 2 past ->
    nth_error (snd (KLT.run calls s)) i = Some log ->
    In (KLT.EvTrack prev cur ppts) log ->
    lastn 2 (past ++ firstn (S i) (frames calls)) = [prev; cur].
Proof.
  induction calls as [|[im d] rest IH]; intros s past i log prev cur ppts H N I.
  - destruct i; discriminate N.
  - rewrite run_cons in N. cbn [snd] in N.
    assert (E : KLT.ims_ (state_of (KLT.process im d s))
                = lastn 2 (past ++ [gaussian_blur_to_gray im])).
    { rewrite (proj1 (process_state im d s)), H. apply lastn_push. }
    destruct i as [|i]; cbn [nth_error] in N.
    + injection N as <-. apply track_event_frames in I.
      cbn [frames map firstn fst]. rewrite <- E, (proj1 (process_state im d s)). exact I.
    + specialize (IH _ _ i log prev cur ppts E N I).
      cbn [frames map firstn fst].
      change (past ++ gaussian_blur_to_gray im :: ?l)
        with (past ++ [gaussian_blur_to_gray im] ++ l).
      rewrite app_assoc. exact IH.
Qed.

(** C7: the buffer of preprocessed frames of an instance holds the last
    two frames pushed, and never more than two; a third push evicts the
    oldest; every call to the optical-flow tracker is on the two most
    recent preprocessed frames, older one first. *)
Theorem C7_two_most_recent_frames
  (max_track_length : nat) (min_tracks : Z)
  (calls : list (Image * option (list point))) :
  let r := KLT.run calls (KLT.init max_track_length min_tracks) in
  KLT.ims_ (fst r) = lastn 2 (frames calls)
  /\ (List.length (KLT.ims_ (fst r)) <= 2)%nat
  /\ (forall a b c : Gray, Py.deque_append 2 [a; b] c = [b; c])
  /\ (forall (i : nat) (log : list KLT.Event) (prev cur : Gray) (ppts : list point),
        nth_error (snd r) i = Some log ->
        In (KLT.EvTrack prev cur ppts) log ->
        lastn 2 (firstn (S i) (frames calls)) = [prev; cur]).
Proof.
  cbv zeta.
  assert (E : KLT.ims_ (fst (KLT.run calls (KLT.init max_track_length min_tracks)))
              = lastn 2 (frames calls)).
  { apply (run_ims calls (KLT.init max_track_length min_tracks) []). reflexivity. }
  split; [exact E|]. split; [rewrite E; apply lastn_length|].
  split; [reflexivity|].
  intros i log prev cur ppts N I.
  apply (run_track_frames calls (KLT.init max_track_length min_tracks) []
           i log prev cur ppts); [reflexivity | exact N | exact I].
Qed.

Lemma circles_shape (l : list point) (m : Mask) :
  mshape (KLT.draw_circles m l) = mshape m.
Proof.
  revert m. induction l as [|p l IH]; intros m; [reflexivity|].
  cbn [KLT.draw_circles]. destruct (circle_drawable (KLT.pixel p)); [|reflexivity].
  rewrite IH. reflexivity.
Qed.

(** The strokes of the circles drawn, in order, on one pixel. *)
Lemma circles_data (l : list point) (m : Mask) (row col : Z) :
  mdata (KLT.draw_circles m l) row col =
  fold_left (fun v p => circle_pixel 9 0 (col - fst (KLT.pixel p))
                                         (row - snd (KLT.pixel p)) v)
            (drawn l) (mdata m row col).
Proof.
  revert m. induction l as [|p l IH]; intros m; [reflexivity|].
  cbn [KLT.draw_circles drawn].
  destruct (circle_drawable (KLT.pixel p)); [|reflexivity].
  rewrite IH. reflexivity.
Qed.

Lemma create_mask_shape (shape : Shape) (o : option (list point)) :
  mshape (KLT.create_mask shape o) = shape.
Proof.
  unfold KLT.create_mask. destruct o as [l|]; [|reflexivity].
  rewrite circles_shape. reflexivity.
Qed.

(** A pixel of the mask holds what the circles drawn leave of 255. *)
Lemma create_mask_data (shape : Shape) (o : option (list point)) (row col : Z) :
  mdata (KLT.create_mask shape o) row col =
  painted (drawn (KLT.points_of o)) (col, row).
Proof.
  unfold KLT.create_mask, painted. destruct o as [l|]; [|reflexivity].
  rewrite circles_data. reflexivity.
Qed.

Lemma norm_index_inside (n i : Z) :
  0 <= i < n -> Py.norm_index n i = Some i.
Proof.
  intros H. unfold Py.norm_index.
  replace (0 <=? i) with true by (symmetry; apply Z.leb_le; lia).
  replace (i <? n) with true by (symmetry; apply Z.ltb_lt; lia).
  reflexivity.
Qed.

Lemma in_image_spec (shape : Shape) (pt : point) :
  in_image shape pt = true ->
  0 <= fst (KLT.pixel pt) < cols shape /\ 0 <= snd (KLT.pixel pt) < rows shape.
Proof.
  unfold in_image. destruct (KLT.pixel pt) as [x y]. cbn [fst snd].
  rewrite !andb_true_iff, !Z.leb_le, !Z.ltb_lt. lia.
Qed.

Lemma in_image_indexable (shape : Shape) (pt : point) :
  in_image shape pt = true -> indexable shape pt = true.
Proof.
  intros H. apply in_image_spec in H. unfold indexable.
  rewrite !norm_index_inside by lia. reflexivity.
Qed.

(** The fancy index raises exactly when some candidate does not index
    the mask. *)
Lemma take_valid_outcome (m : Mask) (l : list point) :
  if forallb (indexable (mshape m)) l
  then exists r, KLT.take_valid m l = Ok r
  else KLT.take_valid m l = Raise IndexError.
Proof.
  induction l as [|pt l IH]; [exists []; reflexivity|].
  cbn [forallb KLT.take_valid]. unfold indexable at 1, KLT.mask_at.
  destruct (Py.norm_index (rows (mshape m)) _); [|reflexivity].
  destruct (Py.norm_index (cols (mshape m)) _); [|reflexivity].
  cbn [andb]. destruct (forallb _ l).
  - destruct IH as [r ->]. eexists. reflexivity.
  - rewrite IH. reflexivity.
Qed.

(** The selection returns exactly on a mask without channels that every
    candidate indexes; otherwise it is an [IndexError]. *)
Lemma select_valid_outcome (m : Mask) (l : list point) :
  if negb (color (mshape m)) && forallb (indexable (mshape m)) l
  then exists r, KLT.select_valid m l = Ok r
  else KLT.select_valid m l = Raise IndexError.
Proof.
  unfold KLT.select_valid. pose proof (take_valid_outcome m l) as S.
  destruct (forallb _ l).
  - destruct S as [r ->]. destruct (color (mshape m)); [reflexivity|].
    exists r. reflexivity.
  - rewrite S, andb_false_r. reflexivity.
Qed.

(** Inside the image the fancy index keeps the candidates at whose pixel
    the mask is positive. *)
Lemma take_valid_inside (m : Mask) (l : list point) :
  forallb (in_image (mshape m)) l = true ->
  KLT.take_valid m l =
  Ok (filter (fun c => 0 <? mdata m (snd (KLT.pixel c)) (fst (KLT.pixel c))) l).
Proof.
  induction l as [|pt l IH]; intros H; [reflexivity|].
  cbn [forallb] in H. apply andb_true_iff in H. destruct H as [Hpt Hl].
  cbn [KLT.take_valid filter]. rewrite (IH Hl).
  apply in_image_spec in Hpt. unfold KLT.mask_at.
  rewrite !norm_index_inside by lia.
  destruct (0 <? _); reflexivity.
Qed.

Lemma select_valid_inside (m : Mask) (l : list point) :
  color (mshape m) = false ->
  forallb (in_image (mshape m)) l = true ->
  KLT.select_valid m l =
  Ok (filter (fun c => 0 <? mdata m (snd (KLT.pixel c)) (fst (KLT.pixel c))) l).
Proof.
  intros Hc Hin. unfold KLT.select_valid.
  rewrite (take_valid_inside m l Hin), Hc. reflexivity.
Qed.






(** Handing no point to [add] leaves the instance's TrackManager as it
    was, for a TrackManager that treats empty input as no update. *)
Lemma quiet_call_keeps_tracks
  (Hnil : forall ids prune (m : T), tm_add [] ids prune m = m)
  (s : KLT.OpenCVKLT T) (im : Image) (d : option (list point)) :
  forallb adds_nothing (log_of (KLT.process im d s)) = true ->
  KLT.tm_ (state_of (KLT.process im d s)) = KLT.tm_ s.
Proof.
  rewrite process_phases_eq. unfold process_phases, log_of, state_of.
  assert (P : forallb adds_nothing
                (snd (propagate (KLT.tm_ s)
                   (Py.deque_append 2 (KLT.ims_ s) (gaussian_blur_to_gray im)))) = true ->
              fst (propagate (KLT.tm_ s)
                   (Py.deque_append 2 (KLT.ims_ s) (gaussian_blur_to_gray im)))
              = KLT.tm_ s).
  { unfold propagate.
    destruct (Py.deque_append 2 _ _) as [|a [|b [|c l]]]; try reflexivity.
    destruct (tm_pts (KLT.tm_ s)) as [[|p ps]|]; try reflexivity.
    cbn [snd fst forallb adds_nothing].
    destruct (tracker_track a b (p :: ps)); [|discriminate].
    intros _. apply Hnil. }
  destruct (propagate _ _) as [m1 log1]. cbn [fst snd] in P.
  destruct (wants_features s).
  - destruct (candidates im d _) as [[new_pts|e] l]; cbn [fst snd KLT.tm_].
    + rewrite forallb_app. cbn [forallb adds_nothing]. rewrite forallb_app.
      cbn [forallb adds_nothing].
      rewrite !andb_true_iff. intros [H1 [_ [_ [H3 _]]]].
      destruct new_pts; [|discriminate H3].
      rewrite Hnil. exact (P H1).
    + rewrite forallb_app, andb_true_iff. intros [H1 _]. exact (P H1).
  - cbn [fst snd KLT.tm_]. exact P.
Qed.

(** How one call ends: it returns the pair its TrackManager then holds,
    unless it replenishes from candidates it cannot select from. *)
Lemma process_outcome (s : KLT.OpenCVKLT T) (im : Image) (d : option (list point)) :
  outcome_of (KLT.process im d s) =
    (if negb (wants_features s) || selectable (im_shape im) d
     then Ok (tm_ids (KLT.tm_ (state_of (KLT.process im d s))),
              tm_pts (KLT.tm_ (state_of (KLT.process im d s))))
     else Raise IndexError).
Proof.
  rewrite process_phases_eq. unfold process_phases, outcome_of, state_of.
  destruct (propagate _ _) as [m1 log1].
  destruct (wants_features s); [|reflexivity].
  cbn [negb orb]. unfold candidates, selectable.
  destruct d as [l|]; [|reflexivity].
  pose proof (select_valid_outcome
                (KLT.create_mask (im_shape im) (tm_pts (KLT.tm_ s))) l) as S.
  rewrite create_mask_shape in S.
  destruct (negb (color (im_shape im)) && forallb (indexable (im_shape im)) l).
  - destruct S as [r ->]. reflexivity.
  - rewrite S. reflexivity.
Qed.

(** C8 (as the code has it, on frames without channels): [process]
    returns, with the ids and points its TrackManager then holds, unless
    it replenishes from supplied candidates of which one does not index
    the mask, in which case it raises [IndexError]; and when every [add]
    of the call was handed no point, a TrackManager for which that is no
    update holds the tracks it held before. *)
Theorem C8_process_returns_unless_candidate_out_of_range
  (Hnil : forall ids prune (m : T), tm_add [] ids prune m = m)
  (s : KLT.OpenCVKLT T) (im : Image) (d : option (list point))
  (Hgray : color (im_shape im) = false) :
  let r := KLT.process im d s in
  outcome_of r =
    (if negb (wants_features s) || well_indexed (im_shape im) d
     then Ok (tm_ids (KLT.tm_ (state_of r)), tm_pts (KLT.tm_ (state_of r)))
     else Raise IndexError)
  /\ (forallb adds_nothing (log_of r) = true -> KLT.tm_ (state_of r) = KLT.tm_ s).
Proof.
  cbv zeta. split; [|apply quiet_call_keeps_tracks; exact Hnil].
  rewrite process_outcome. unfold selectable, well_indexed.
  rewrite Hgray. destruct d; reflexivity.
Qed.

(** The guard of [matches] makes both subscripts succeed. *)
Lemma getitem_guarded {A} (l : list A) (i : Z) :
  (Py.len l >? Z.abs i) = true -> exists x, Py.getitem l i = Ok x.
Proof.
  intros H. apply Z.gtb_lt in H. unfold Py.getitem, Py.norm_index.
  assert (N : forall k, 0 <= k < Py.len l ->
              exists x, match nth_error l (Z.to_nat k) with
                        | Some x => Ok x
                        | None => Raise IndexError
                        end = Ok x).
  { intros k Hk. destruct (nth_error l (Z.to_nat k)) as [x|] eqn:E.
    - exists x. reflexivity.
    - apply nth_error_None in E. unfold Py.len in Hk. lia. }
  destruct (Z.leb_spec 0 i) as [Hi | Hi]; cbn [andb].
  - replace (i <? Py.len l) with true by (symmetry; apply Z.ltb_lt; lia).
    apply N. lia.
  - replace (i <? 0) with true by (symmetry; apply Z.ltb_lt; lia).
    replace (- Py.len l <=? i) with true by (symmetry; apply Z.leb_le; lia).
    cbn [andb]. apply N. lia.
Qed.

(** The loop of [matches] does not raise; it keeps, in order, the ids of
    the tracks that pass the guard, with as many points on each side. *)
Lemma matches_loop_ok (index1 index2 : Z) (tracks : list (Z * list point)) :
  exists p1 p2,
    KLT.matches_loop index1 index2 tracks =
      Ok (map fst (filter (fun e => (Py.len (snd e) >? Z.abs index1)
                                    && (Py.len (snd e) >? Z.abs index2)) tracks),
          p1, p2)
    /\ List.length p1 = List.length p2
    /\ (p1 = [] ->
        filter (fun e => (Py.len (snd e) >? Z.abs index1)
                         && (Py.len (snd e) >? Z.abs index2)) tracks = []).
Proof.
  induction tracks as [|[tid pts] rest IH].
  - exists [], []. repeat split; reflexivity.
  - destruct IH as [p1 [p2 [E [L N]]]]. cbn [KLT.matches_loop filter snd].
    destruct ((Py.len pts >? Z.abs index1) && (Py.len pts >? Z.abs index2)) eqn:G.
    + apply andb_true_iff in G. destruct G as [G1 G2].
      destruct (getitem_guarded pts index1 G1) as [a ->].
      destruct (getitem_guarded pts index2 G2) as [b ->].
      rewrite E. exists (a :: p1), (b :: p2). split; [reflexivity|].
      split; [cbn [List.length]; rewrite L; reflexivity | discriminate].
    + exists p1, p2. repeat split; assumption.
Qed.

(** [matches] returns for every TrackManager and every pair of offsets,
    and the ids it returns are those of the tracks with more observations
    than the absolute value of either offset. *)
Lemma matches_returns (index1 index2 : Z) (s : KLT.OpenCVKLT T) :
  exists p1 p2,
    KLT.matches index1 index2 s =
      Ok (map fst (filter (fun e => (Py.len (snd e) >? Z.abs index1)
                                    && (Py.len (snd e) >? Z.abs index2))
                          (tm_tracks (KLT.tm_ s))),
          p1, p2).
Proof.
  unfold KLT.matches.
  destruct (matches_loop_ok index1 index2 (tm_tracks (KLT.tm_ s)))
    as [p1 [p2 [-> [L N]]]].
  destruct p1 as [|a p1], p2 as [|b p2]; try discriminate L.
  - exists [], []. rewrite (N eq_refl). reflexivity.
  - exists (a :: p1), (b :: p2). reflexivity.
Qed.

(** With the default offsets the guard asks for three observations. *)
Lemma matches_default_needs_three (s : KLT.OpenCVKLT T) :
  exists p1 p2,
    KLT.matches_default s =
      Ok (map fst (filter (fun e => 3 <=? Py.len (snd e)) (tm_tracks (KLT.tm_ s))), p1, p2).
Proof.
  destruct (matches_returns (-2) (-1) s) as [p1 [p2 E]].
  exists p1, p2. unfold KLT.matches_default. rewrite E. do 3 f_equal. f_equal.
  apply filter_ext. intros [tid pts]. cbn [snd Z.abs Z.opp].
  destruct (Z.leb_spec 3 (Py.len pts)) as [H | H].
  - apply andb_true_iff. split; apply Z.gtb_lt; cbn; lia.
  - apply andb_false_iff. left. rewrite Z.gtb_ltb. apply Z.ltb_ge. cbn. lia.
Qed.
End Proofs.
End KLTProofs.

(** * The tracker on concrete frames *)

Module KLTExamples.
Import KLTSpec Phases Demo.

Example deque_third_push : Py.deque_append 2 [1; 2] 3 = [2; 3].
Proof. reflexivity. Qed.

Example getitem_second_to_last : Py.getitem [10; 20; 30] (-2) = Ok 20.
Proof. reflexivity. Qed.

Example two_tracks_held :
  tm_tracks (KLT.tm_ two_tracks) = [(0, [pt 10 10]); (1, [pt 50 50])].
Proof. vm_compute. reflexivity. Qed.

(** C1, refuted as stated: a fresh tracker has the flag set; its first
    call, on a frame where the detector finds nothing, adds no point and
    leaves the TrackManager as it was, and yet the flag is cleared. *)
Lemma C1_flag_cleared_without_new_points :
  let r := KLT.process 0%nat None fresh in
  registered (log_of r) = [[]]
  /\ ~ (KLT.add_features_ fresh = true ->
        KLT.tm_ (state_of r) = KLT.tm_ fresh ->
        KLT.add_features_ (state_of r) = true).
Proof.
  cbv zeta. split; [vm_compute; reflexivity|].
  intros H.
  assert (E : KLT.add_features_ (state_of (KLT.process 0%nat None fresh)) = false)
    by (vm_compute; reflexivity).
  assert (K : KLT.tm_ (state_of (KLT.process 0%nat None fresh)) = KLT.tm_ fresh)
    by (vm_compute; reflexivity).
  specialize (H eq_refl K). rewrite E in H. discriminate H.
Qed.



(** The tracked points are those on entry, whatever the propagation
    makes of them: with tracks at (10, 10) and (50, 50) that the flow
    moves to (50, 50) and (90, 90), the circles are drawn at the old
    positions and the candidate (90, 90) is registered on top of the
    track that now is at (90, 90). *)
Lemma mask_drawn_at_entry_positions :
  let r := KLT.process 1%nat (Some [pt 50 50; pt 90 90; pt 120 80]) two_tracks in
  registered (log_of r) = [[pt 90 90; pt 120 80]]
  /\ tm_pts (fst (propagate (KLT.tm_ two_tracks) [0%nat; 1%nat]))
     = Some [pt 50 50; pt 90 90]
  /\ outcome_of r = Ok ([0; 1; 2; 3], Some [pt 50 50; pt 90 90; pt 90 90; pt 120 80]).
Proof. cbv zeta. repeat split; vm_compute; reflexivity. Qed.

(** C8, refuted as stated: a candidate at column 5000 of a frame 200
    columns wide makes the call raise. *)
Lemma C8_candidate_out_of_range_raises :
  outcome_of (KLT.process 0%nat (Some [pt 5000 0]) fresh) = Raise IndexError.
Proof. vm_compute. reflexivity. Qed.


(** On a colour frame the mask has the channels of the frame, and a
    call that replenishes from candidates raises even when they are
    inside the image. *)
Lemma colour_frame_candidates_raise :
  outcome_of (KLT.process 100%nat (Some [pt 10 10]) fresh) = Raise IndexError.
Proof. vm_compute. reflexivity. Qed.

(** The tracker call of the third of three calls is on frames 1 and 2. *)
Lemma C7_witness :
  lastn 2 (firstn 3 (frames three_calls)) = [1%nat; 2%nat].
Proof.
  pose proof (proj2 (proj2 (proj2
    (KLTProofs.C7_two_most_recent_frames 20 3 three_calls))) 2%nat) as H.
  remember (nth_error (snd (KLT.run three_calls (KLT.init 20 3))) 2) as o eqn:E.
  assert (X : match o with
              | Some (KLT.EvTrack prev cur ppts :: _) => Some (prev, cur, ppts)
              | _ => None
              end = Some (1%nat, 2%nat, [pt 50 50; pt 90 90]))
    by (rewrite E; vm_compute; reflexivity).
  destruct o as [[|[prev cur ppts| | |] log]|]; try discriminate X.
  injection X as -> -> ->.
  apply (H _ 1%nat 2%nat [pt 50 50; pt 90 90] eq_refl).
  left. reflexivity.
Defined.

(** A first call on which the detector finds nothing returns the empty
    pair and leaves the TrackManager as it was. *)
Lemma C8_witness :
  let r := KLT.process 0%nat None fresh in
  outcome_of r = Ok ([], Some []) /\ KLT.tm_ (state_of r) = KLT.tm_ fresh.
Proof.
  cbv zeta.
  destruct (@KLTProofs.C8_process_returns_unless_candidate_out_of_range
              vision SpecTM.t spec_track_manager
              (fun ids prune m => eq_refl) fresh 0%nat None eq_refl) as [H1 H2].
  split.
  - rewrite H1. vm_compute. reflexivity.
  - apply H2. vm_compute. reflexivity.
Defined.

(** C4, at the input where the code departs from it: a track observed in
    two frames has an observation at offset -2 and one at offset -1, and
    [matches()] with its default offsets returns empty arrays. *)
Theorem C4_matches_skips_two_observation_track :
  tm_tracks (KLT.tm_ seen_twice) = [(0, [pt 10 10; pt 50 50])]
  /\ Py.getitem [pt 10 10; pt 50 50] (-2) = Ok (pt 10 10)
  /\ Py.getitem [pt 10 10; pt 50 50] (-1) = Ok (pt 50 50)
  /\ KLT.matches_default seen_twice = Ok ([], [], []).
Proof. repeat split; vm_compute; reflexivity. Qed.

End KLTExamples.

(** * Properties of the calibration lookup *)

Module KittiProofs.
Import Kitti.

Lemma int_of_str_raises (s : string) (e : exn) :
  Py.int_of_str s = Raise e -> e = ValueError.
Proof.
  unfold Py.int_of_str.
  destruct (Py.split_sign (Py.strip (list_ascii_of_string s))) as [neg ds].
  destruct ds as [|c ds]; [congruence|].
  destruct (Py.digits 0 (c :: ds)); congruence.
Qed.

Lemma table_entries_differ :
  kitti_00_02 <> kitti_03 /\ kitti_00_02 <> kitti_04_12 /\ kitti_03 <> kitti_04_12.
Proof. repeat split; discriminate. Qed.

(** C5: the lookup returns the 0-2 entry, scaled, exactly for the
    identifiers whose integer value is 0, 1 or 2, the entry of 3 exactly
    for value 3, the 4-12 entry exactly for values 4 to 12, and raises
    [RuntimeError] exactly for the other integer values; so "00" gives
    the 0-2 entry, "03" the entry of 3, and "13" fails. *)
Theorem C5_calibration_by_sequence_range (sequence : string) (scale : Q) :
  (kitti_stereo_calib sequence scale = Ok (scaled kitti_00_02 scale)
     <-> exists n, Py.int_of_str sequence = Ok n /\ 0 <= n <= 2)
  /\ (kitti_stereo_calib sequence scale = Ok (scaled kitti_03 scale)
     <-> Py.int_of_str sequence = Ok 3)
  /\ (kitti_stereo_calib sequence scale = Ok (scaled kitti_04_12 scale)
     <-> exists n, Py.int_of_str sequence = Ok n /\ 4 <= n <= 12)
  /\ (kitti_stereo_calib sequence scale = Raise RuntimeError
     <-> exists n, Py.int_of_str sequence = Ok n /\ (n < 0 \/ 12 < n))
  /\ kitti_stereo_calib "00" scale = Ok (scaled kitti_00_02 scale)
  /\ kitti_stereo_calib "03" scale = Ok (scaled kitti_03 scale)
  /\ kitti_stereo_calib "13" scale = Raise RuntimeError.
Proof.
  destruct table_entries_differ as [D1 [D2 D3]].
  assert (calib_of : forall n,
            Py.int_of_str sequence = Ok n ->
            kitti_stereo_calib sequence scale =
            if (0 <=? n) && (n <=? 2) then Ok (scaled kitti_00_02 scale)
            else if n =? 3 then Ok (scaled kitti_03 scale)
            else if (4 <=? n) && (n <=? 12) then Ok (scaled kitti_04_12 scale)
            else Raise RuntimeError).
  { intros n E. unfold kitti_stereo_calib. rewrite E. reflexivity. }
  assert (calib_raise : forall e,
            Py.int_of_str sequence = Raise e ->
            kitti_stereo_calib sequence scale = Raise ValueError).
  { intros e E. unfold kitti_stereo_calib. rewrite E.
    apply int_of_str_raises in E. rewrite E. reflexivity. }
  split; [|split; [|split; [|split; [|repeat split; reflexivity]]]].
  all: destruct (Py.int_of_str sequence) as [n|e] eqn:E;
    [ rewrite (calib_of n eq_refl)
    | rewrite (calib_raise e eq_refl);
      split; [discriminate | first [intros [k [K _]]; discriminate K | discriminate]] ].
  all: destruct (Z.leb_spec 0 n) as [L0 | L0];
    destruct (Z.leb_spec n 2) as [L2 | L2]; cbn [andb];
    destruct (Z.eqb_spec n 3) as [L3 | L3];
    destruct (Z.leb_spec 4 n) as [L4 | L4];
    destruct (Z.leb_spec n 12) as [L12 | L12]; cbn [andb]; try lia.
  all: split;
    [ intros H;
      first [ discriminate H
            | injection H as H; congruence
            | exists n; split; [reflexivity | lia]
            | f_equal; lia ]
    | first [ intros [k [K G]]; injection K as <-; first [reflexivity | lia]
            | intros K; injection K as K; first [reflexivity | lia] ] ].
Qed.


Section PoseFiles.
Context {FT : FloatText} {R : Rigid}.

Lemma chars_app (s1 s2 : string) :
  list_ascii_of_string (s1 ++ s2) = list_ascii_of_string s1 ++ list_ascii_of_string s2.
Proof.
  induction s1 as [|c s1 IH]; [reflexivity|].
  cbn. rewrite IH. reflexivity.
Qed.

(** A white-space character ends the item being read and starts the
    search for the next one. *)
Lemma items_split (a b : list ascii) (c : ascii) :
  Py.is_space c = true ->
  forall cur, items cur (a ++ c :: b) = items cur a ++ items [] b.
Proof.
  intros Hc. induction a as [|x a IH]; intros cur.
  - cbn [app items]. rewrite Hc. destruct cur; reflexivity.
  - cbn [app items]. destruct (Py.is_space x).
    + destruct cur; rewrite IH; reflexivity.
    + apply IH.
Qed.

Lemma items_token (tok : list ascii) :
  forallb (fun c => negb (Py.is_space c)) tok = true ->
  forall cur,
    items cur tok =
    match rev tok ++ cur with
    | [] => []
    | acc => [string_of_list_ascii (rev acc)]
    end.
Proof.
  induction tok as [|x tok IH]; intros H cur.
  - cbn. destruct cur; reflexivity.
  - cbn [forallb] in H. apply andb_true_iff in H. destruct H as [Hx Ht].
    apply negb_true_iff in Hx. cbn [items]. rewrite Hx, (IH Ht).
    cbn [rev]. rewrite <- app_assoc. reflexivity.
Qed.

Lemma items_of_item (s : string) :
  is_item s = true -> items [] (list_ascii_of_string s) = [s].
Proof.
  unfold is_item. intros H.
  destruct (list_ascii_of_string s) as [|c l] eqn:E; [discriminate|].
  rewrite (items_token _ H), app_nil_r.
  destruct (rev (c :: l)) eqn:Er.
  - apply (f_equal (@List.length ascii)) in Er.
    rewrite length_rev in Er. discriminate Er.
  - rewrite <- Er, rev_involutive, <- E, string_of_list_ascii_of_string. reflexivity.
Qed.

(** Joining with a blank, or with carriage return and line feed, keeps
    the items of the joined texts. *)
Lemma items_concat (sep : string) (ls : list string) :
  sep = " " \/ sep = String "013" (String "010" EmptyString) ->
  items [] (list_ascii_of_string (String.concat sep ls)) =
  flat_map (fun s => items [] (list_ascii_of_string s)) ls.
Proof.
  intros Hsep. induction ls as [|s [|t ls] IH].
  - reflexivity.
  - cbn. rewrite app_nil_r. reflexivity.
  - change (String.concat sep (s :: t :: ls))
      with (s ++ sep ++ String.concat sep (t :: ls))%string.
    rewrite !chars_app. cbn [flat_map] in IH |- *. rewrite <- IH.
    destruct Hsep as [-> | ->]; cbn [list_ascii_of_string app].
    + apply items_split. reflexivity.
    + rewrite items_split by reflexivity. reflexivity.
Qed.

(** White space before the first item does not count. *)
Lemma items_lstrip (s : list ascii) :
  items [] (Py.lstrip s) = items [] s.
Proof.
  induction s as [|c s IH]; [reflexivity|].
  cbn [Py.lstrip items]. destruct (Py.is_space c) eqn:Hc; [exact IH|].
  cbn [items]. rewrite Hc. reflexivity.
Qed.

(** The item being read ends with the run of characters up to the next
    white space. *)
Lemma items_run (s : list ascii) :
  forall cur,
    items cur s =
    match rev (fst (split_run s)) ++ cur with
    | [] => items [] (snd (split_run s))
    | acc => string_of_list_ascii (rev acc) :: items [] (snd (split_run s))
    end.
Proof.
  induction s as [|c s IH]; intros cur.
  - cbn. destruct cur; reflexivity.
  - cbn [items split_run]. destruct (Py.is_space c) eqn:Hc.
    + cbn [fst snd rev app items]. rewrite Hc. destruct cur; reflexivity.
    + rewrite IH. destruct (split_run s) as [run rest]. cbn [fst snd rev].
      rewrite <- app_assoc. reflexivity.
Qed.

(** After the white space there is a run, or nothing at all. *)
Lemma split_run_lstrip (s : list ascii) :
  fst (split_run (Py.lstrip s)) = [] -> Py.lstrip s = [].
Proof.
  induction s as [|c s IH]; [reflexivity|].
  cbn [Py.lstrip]. destruct (Py.is_space c) eqn:Hc; [exact IH|].
  cbn [split_run]. rewrite Hc. destruct (split_run s). discriminate.
Qed.

(** The first item of a text is the run behind its leading white space,
    and the other items are those of what follows the run. *)
Lemma items_scan (s : list ascii) :
  items [] s =
  match fst (split_run (Py.lstrip s)) with
  | [] => []
  | run => string_of_list_ascii run :: items [] (snd (split_run (Py.lstrip s)))
  end.
Proof.
  rewrite <- items_lstrip.
  destruct (fst (split_run (Py.lstrip s))) as [|c run] eqn:E.
  - rewrite (split_run_lstrip s E). reflexivity.
  - rewrite items_run, E, app_nil_r.
    destruct (rev (c :: run)) eqn:Er.
    + apply (f_equal (@List.length ascii)) in Er.
      rewrite length_rev in Er. discriminate Er.
    + rewrite <- Er, rev_involutive. reflexivity.
Qed.

Lemma items_length (s : list ascii) :
  forall cur,
    (List.length (items cur s)
     <= List.length s + match cur with [] => 0 | _ => 1 end)%nat.
Proof.
  induction s as [|c s IH]; intros cur.
  - destruct cur; cbn; lia.
  - cbn [items]. destruct (Py.is_space c).
    + specialize (IH []). destruct cur; cbn [List.length] in *; lia.
    + specialize (IH (c :: cur)). cbn [List.length] in *. lia.
Qed.

Lemma float_parse_head (i : string) (x : F) :
  float_parse i = Some x -> float_head i = Some (x, EmptyString).
Proof.
  unfold float_parse. destruct (float_head i) as [[y [|c u]]|]; congruence.
Qed.

(** On a text of which every item is one number, all of it, the reader
    gets the numbers of the items, in order. *)
Lemma read_numbers_items (fuel : nat) :
  forall (s : list ascii) (vals : list F),
    Forall2 (fun i x => float_parse i = Some x) (items [] s) vals ->
    (List.length (items [] s) < fuel)%nat ->
    read_numbers fuel s = vals.
Proof.
  induction fuel as [|k IH]; intros s vals Hv Hf; [lia|].
  cbn [read_numbers]. rewrite (items_scan s) in Hv, Hf.
  destruct (split_run (Py.lstrip s)) as [run rest]. cbn [fst snd] in Hv, Hf.
  destruct run as [|c run].
  - inversion Hv. reflexivity.
  - inversion Hv as [|i x is' vals' Hx Hrest]; subst.
    cbn [string_of_list_ascii] in Hx |- *.
    rewrite (float_parse_head _ _ Hx). cbn [list_ascii_of_string List.length app].
    cbn [Nat.ltb Nat.leb]. f_equal. apply IH; [exact Hrest|].
    cbn [List.length] in Hf. lia.
Qed.

(** The same for the whole content of a file. *)
Lemma np_fromfile_items (content : string) (vals : list F) :
  Forall2 (fun i x => float_parse i = Some x)
          (items [] (list_ascii_of_string content)) vals ->
  np_fromfile content = vals.
Proof.
  intros Hv. unfold np_fromfile. apply read_numbers_items; [exact Hv|].
  pose proof (items_length (list_ascii_of_string content) []) as L.
  cbn in L. lia.
Qed.

Section RoundTrip.
Variable reread : F -> F.
Hypothesis str_is_item : forall x, is_item (float_str x) = true.
Hypothesis parse_str : forall x, float_parse (float_str x) = Some (reread x).

Lemma items_of_floats (l : list F) :
  flat_map (fun s => items [] (list_ascii_of_string s)) (map float_str l)
  = map float_str l.
Proof.
  induction l as [|x l IH]; [reflexivity|].
  cbn [map flat_map]. rewrite (items_of_item _ (str_is_item x)), IH. reflexivity.
Qed.

Lemma items_of_lines (ls : list (list F)) :
  flat_map (fun s => items [] (list_ascii_of_string s))
           (map (fun l => String.concat " " (map float_str l)) ls)
  = map float_str (List.concat ls).
Proof.
  induction ls as [|l ls IH]; [reflexivity|].
  cbn [map flat_map List.concat]. rewrite IH, map_app.
  rewrite (items_concat " " _ (or_introl eq_refl)), items_of_floats. reflexivity.
Qed.

Lemma parse_items_str (l : list F) :
  Forall2 (fun i x => float_parse i = Some x) (map float_str l) (map reread l).
Proof.
  induction l as [|x l IH]; [constructor|].
  cbn [map]. constructor; [apply parse_str | exact IH].
Qed.

(** What the reader gets from the text of a list of poses. *)
Lemma np_fromfile_poses (poses : list RigidTransform) :
  np_fromfile (kitti_poses_to_str poses)
  = map reread (List.concat (map flatten34 poses)).
Proof.
  apply np_fromfile_items. unfold kitti_poses_to_str.
  rewrite (items_concat _ _ (or_intror eq_refl)).
  rewrite <- (map_map flatten34 (fun l => String.concat " " (map float_str l))).
  rewrite items_of_lines. apply parse_items_str.
Qed.

Lemma reshape_poses (poses : list RigidTransform) :
  match reshape_12 (map reread (List.concat (map flatten34 poses))) with
  | Ok rows => map (fun p => from_Rt (fst p) (snd p)) rows
               = map (reread_pose reread) poses
  | Raise _ => False
  end.
Proof.
  induction poses as [|x poses IH]; [reflexivity|].
  cbn [map List.concat]. unfold flatten34 at 1, reread_pose at 1.
  destruct (matrix x) as [[[[[[a0 a1] a2] a3] [[[b0 b1] b2] b3]] [[[c0 c1] c2] c3]] r3].
  cbn [app map reshape_12].
  destruct (reshape_12 _) as [rows|e]; [|exact IH].
  cbn [map fst snd]. rewrite IH. reflexivity.
Qed.

(** C9: when Python's [str] of a float is one item of text and the
    reader takes that item back as [reread x], loading a file that
    holds [kitti_poses_to_str poses] succeeds and gives, pose by
    pose and in order, the transform built by [from_Rt] from the
    rotation and translation blocks of the original matrix, entry by
    entry through [reread]. *)
Theorem C9_pose_text_round_trip
  (fs : string -> option string) (fn : string) (poses : list RigidTransform) :
  fs fn = Some (kitti_poses_to_str poses) ->
  kitti_load_poses fs fn = Ok (map (reread_pose reread) poses).
Proof.
  intros Hfile. unfold kitti_load_poses. rewrite Hfile, np_fromfile_poses.
  pose proof (reshape_poses poses) as H.
  destruct (reshape_12 _) as [rows|e]; [rewrite H; reflexivity | contradiction].
Qed.
End RoundTrip.
End PoseFiles.
End KittiProofs.

(** * The pose file of two poses *)

Module KittiExamples.
Import Kitti Demo.

Example int_of_str_padded : Py.int_of_str " -12 " = Ok (-12).
Proof. reflexivity. Qed.

Example int_of_str_empty : Py.int_of_str "" = Raise ValueError.
Proof. reflexivity. Qed.

Example calib_of_default_sequence : kitti_stereo_calib "" 1 = Raise ValueError.
Proof. reflexivity. Qed.

Example two_poses_text :
  kitti_poses_to_str [pose_identity; pose_shifted] =
  String.concat (String "013" (String "010" EmptyString))
    ["1.0 0.0 0.0 0.0 0.0 1.0 0.0 0.0 0.0 0.0 1.0 0.0";
     "1.0 0.0 0.0 1.0 0.0 1.0 0.0 0.0 0.0 0.0 1.0 0.0"].
Proof. vm_compute. reflexivity. Qed.

Example missing_pose_file : kitti_load_poses pose_files "poses/01.txt" = Raise IOError.
Proof. vm_compute. reflexivity. Qed.

(** The reader keeps the number at the head of an item it cannot read to
    the end, and stops there. *)
Example number_before_junk : np_fromfile "1.0x 0.0" = [true].
Proof. vm_compute. reflexivity. Qed.

Example numbers_without_blank : np_fromfile "1.00.0 1.0" = [true; false; true].
Proof. vm_compute. reflexivity. Qed.

(** Junk behind the twelfth number is not read: one pose. *)
Example junk_after_pose :
  kitti_load_poses
    (fun _ => Some "1.0 0.0 0.0 0.0 0.0 1.0 0.0 0.0 0.0 0.0 1.0 0.0x") "poses/00.txt"
  = Ok [pose_identity].
Proof. vm_compute. reflexivity. Qed.

(** Junk behind the first number leaves one number, which is no pose. *)
Example junk_in_first_item :
  kitti_load_poses
    (fun _ => Some "1.0x 0.0 0.0 0.0 0.0 1.0 0.0 0.0 0.0 0.0 1.0 0.0") "poses/00.txt"
  = Raise ValueError.
Proof. vm_compute. reflexivity. Qed.

(** The file of the identity pose and a shifted pose loads back to the
    two poses. *)
Lemma C9_witness :
  kitti_load_poses pose_files "poses/00.txt" = Ok [pose_identity; pose_shifted].
Proof.
  assert (Hitem : forall x : F, is_item (float_str x) = true)
    by (intros []; reflexivity).
  assert (Hparse : forall x : F, float_parse (float_str x) = Some x)
    by (intros []; reflexivity).
  assert (Hfile : pose_files "poses/00.txt"
                  = Some (kitti_poses_to_str [pose_identity; pose_shifted]))
    by reflexivity.
  rewrite (KittiProofs.C9_pose_text_round_trip (fun x => x) Hitem Hparse
             pose_files "poses/00.txt" [pose_identity; pose_shifted] Hfile).
  reflexivity.
Defined.

End KittiExamples.

(** * Properties of the dataset composers *)

Module ComposerProofs.
Section Facts.

Context {RD : Composer.Readers}.
Import Composer.

(** Neither the pose reader nor the velodyne reader can make
    [KITTIDatasetReader.__init__] fail: with a calibration and a stereo
    reader it returns, holding [repeat(None)] for whichever of the two
    could not be built. *)
Lemma KITTIDatasetReader_init_optional (a : Args) (c : Kitti.StereoCamera)
  (st : StereoDatasetReader) :
  Kitti.kitti_stereo_calib (sequence a) (scale a) = Ok c ->
  (let seq_directory :=
     os_path_join [os_path_expanduser (directory a); "sequences"; sequence a] in
   new_StereoDatasetReader seq_directory
     (os_path_join [seq_directory; left_template a])
     (os_path_join [seq_directory; right_template a]) = Ok st) ->
  exists r, KITTIDatasetReader_init a = Ok r
            /\ poses r = or_repeat_none (new_FileReader (pose_fn a))
            /\ (forall e, new_FileReader (pose_fn a) = Raise e -> poses r = RepeatNone).
Proof.
  cbv zeta. intros Hc Hs. unfold KITTIDatasetReader_init. rewrite Hc, Hs.
  eexists. split; [reflexivity|]. cbn [poses]. split; [reflexivity|].
  intros e ->. reflexivity.
Qed.

(** The velodyne reader of [KITTIRawDatasetReader.__init__] is built
    outside any [try]: its failure is the failure of the constructor. *)
Lemma KITTIRawDatasetReader_init_velodyne (a : Args) (base : KITTIDatasetReader)
  (st : StereoDatasetReader) (e : exn) :
  KITTIDatasetReader_init a = Ok base ->
  new_StereoDatasetReader (directory a) (left_template a) (right_template a) = Ok st ->
  new_VelodyneDatasetReader (os_path_join [directory a; velodyne_template a])
    (start_idx a) (max_files a) = Raise e ->
  KITTIRawDatasetReader_init a = Raise e.
Proof.
  intros Hb Hs Hv. unfold KITTIRawDatasetReader_init. rewrite Hb, Hs, Hv. reflexivity.
Qed.

Lemma zip_frames_velodyne (st : StereoDatasetReader) (p : source FileReader) :
  Forall (fun fr => frame_velodyne fr = None) (fst (zip_frames st p)).
Proof.
  unfold zip_frames. destruct (poses_iteritems p) as [ps|e]; cbn [fst]; [|constructor].
  apply Forall_forall. intros fr H. apply in_map_iff in H.
  destruct H as [lp [<- _]]. reflexivity.
Qed.

(** C10: every frame record that [KITTIDatasetReader.iterframes] or
    [KITTIStereoGroundTruthDatasetReader.iterframes] yields has no
    velodyne scan, whatever the reader's velodyne attribute holds; the
    scans come from [iter_velodyne_frames], which the [velodyne_frames]
    property calls, the stereo-velodyne iterator raising on a missing
    attribute; a ground-truth reader built by its constructor yields no
    frame at all, its poses being [repeat(None)], which has no
    [iteritems]. *)
Theorem C10_iterframes_velodyne_none
  (r : KITTIDatasetReader) (g : KITTIStereoGroundTruthDatasetReader)
  (dir : string) (is_2015 : bool) :
  Forall (fun fr => frame_velodyne fr = None) (fst (iterframes r))
  /\ Forall (fun fr => frame_velodyne fr = None) (fst (gt_iterframes g))
  /\ velodyne_frames r = iter_velodyne_frames r
  /\ iter_stereo_velodyne_frames r = Raise AttributeError
  /\ match KITTIStereoGroundTruthDatasetReader_init dir is_2015 with
     | Ok g0 => gt_iterframes g0 = ([], Some AttributeError)
     | Raise _ => True
     end.
Proof.
  split; [apply zip_frames_velodyne|]. split; [apply zip_frames_velodyne|].
  split; [reflexivity|]. split; [reflexivity|].
  unfold KITTIStereoGroundTruthDatasetReader_init.
  destruct is_2015.
  all: destruct (new_StereoDatasetReader _ _ _); [|exact I].
  all: destruct (new_ImageDatasetReader _); [|exact I].
  all: destruct (new_ImageDatasetReader _); [|exact I].
  all: destruct (new_DatasetReader _); [|exact I].
  all: reflexivity.
Qed.

End Facts.
End ComposerProofs.

(** * The composers on a directory without velodyne scans *)

Module ComposerExamples.
Import Composer Demo.

(** C6, at the input where the code departs from it: on a directory
    without velodyne scans [KITTIDatasetReader] is built, holding
    [repeat(None)] for the missing scans, while [KITTIRawDatasetReader],
    whose own velodyne reader is created outside any [try], fails to
    construct with the reader's error. *)
Theorem C6_raw_reader_fails_without_velodyne :
  (exists base, KITTIDatasetReader_init raw_args = Ok base
                /\ velodyne base = RepeatNone
                /\ poses base = Reader tt)
  /\ KITTIRawDatasetReader_init raw_args = Raise IOError.
Proof.
  split; [|reflexivity].
  eexists. split; [reflexivity|]. split; reflexivity.
Qed.

Example iterframes_two_frames :
  exists base, KITTIDatasetReader_init raw_args = Ok base
               /\ map pose (fst (iterframes base)) = [7%nat; 8%nat]
               /\ map frame_velodyne (fst (iterframes base)) = [None; None].
Proof. eexists. split; [reflexivity|]. split; reflexivity. Qed.

End ComposerExamples.


(** * Further properties of the tracker *)

Module KLTMore.
Section Facts.

Context {V : Vision} {T : Type} {TM : TrackManager T}.
Import KLTSpec Phases KLTSpecMore.

Lemma matches_loop_pairs (index1 index2 : Z) (tracks : list (Z * list point)) :
  exists p1 p2,
    KLT.matches_loop index1 index2 tracks =
      Ok (map fst (filter (guard index1 index2) tracks), p1, p2)
    /\ Forall2 (fun e a => Py.getitem (snd e) index1 = Ok a)
               (filter (guard index1 index2) tracks) p1
    /\ Forall2 (fun e b => Py.getitem (snd e) index2 = Ok b)
               (filter (guard index1 index2) tracks) p2.
Proof.
  induction tracks as [|[tid pts] rest IH].
  - exists [], []. repeat split; constructor.
  - destruct IH as [p1 [p2 [E [F1 F2]]]]. cbn [KLT.matches_loop filter].
    change ((Py.len pts >? Z.abs index1) && (Py.len pts >? Z.abs index2))
      with (guard index1 index2 (tid, pts)).
    destruct (guard index1 index2 (tid, pts)) eqn:G.
    + unfold guard in G. cbn [snd] in G.
      apply andb_true_iff in G. destruct G as [G1 G2].
      destruct (KLTProofs.getitem_guarded pts index1 G1) as [a Ha].
      destruct (KLTProofs.getitem_guarded pts index2 G2) as [b Hb].
      rewrite Ha, Hb, E. exists (a :: p1), (b :: p2).
      split; [reflexivity|]. split; constructor; assumption.
    + exists p1, p2. repeat split; assumption.
Qed.

(** X1: [matches] returns for every TrackManager and every pair of
    offsets; the ids are those of the tracks that pass the guard, in
    iteration order, and the two point arrays are parallel to them: entry
    k of the first is the observation at [index1] of track k, entry k of
    the second its observation at [index2]. *)
Theorem matches_parallel_arrays (index1 index2 : Z) (s : KLT.OpenCVKLT T) :
  let kept := filter (guard index1 index2) (tm_tracks (KLT.tm_ s)) in
  exists p1 p2,
    KLT.matches index1 index2 s = Ok (map fst kept, p1, p2)
    /\ Forall2 (fun e a => Py.getitem (snd e) index1 = Ok a) kept p1
    /\ Forall2 (fun e b => Py.getitem (snd e) index2 = Ok b) kept p2.
Proof.
  cbv zeta. unfold KLT.matches.
  destruct (matches_loop_pairs index1 index2 (tm_tracks (KLT.tm_ s)))
    as [p1 [p2 [-> [F1 F2]]]].
  destruct p1 as [|a p1], p2 as [|b p2].
  - exists [], []. inversion F1 as [E|]. rewrite <- E in *.
    repeat split; constructor.
  - inversion F1 as [E|]. rewrite <- E in F2. inversion F2.
  - inversion F2 as [E|]. rewrite <- E in F1. inversion F1.
  - exists (a :: p1), (b :: p2). repeat split; assumption.
Qed.

Lemma guard_is_subscript {A} (l : list A) (i : Z) :
  (Py.len l >? Z.abs i) = has_item l (guarded_offset i).
Proof.
  unfold has_item, guarded_offset, Py.getitem, Py.norm_index.
  assert (N : forall k, 0 <= k < Py.len l ->
              match nth_error l (Z.to_nat k) with
              | Some x => Ok x
              | None => Raise IndexError
              end <> Raise IndexError).
  { intros k Hk. destruct (nth_error l (Z.to_nat k)) eqn:E; [discriminate|].
    apply nth_error_None in E. unfold Py.len in Hk. lia. }
  assert (L : 0 <= Py.len l) by (unfold Py.len; lia).
  destruct (Z.leb_spec 0 i) as [Hi | Hi].
  - replace (0 <=? i) with true by (symmetry; apply Z.leb_le; lia). cbn [andb].
    destruct (Z.ltb_spec i (Py.len l)) as [Hl | Hl].
    + specialize (N i (conj Hi Hl)).
      destruct (nth_error l (Z.to_nat i)); [|congruence].
      apply Z.gtb_lt. lia.
    + replace (i <? 0) with false by (symmetry; apply Z.ltb_ge; lia). cbn [andb].
      rewrite Z.gtb_ltb. apply Z.ltb_ge. lia.
  - replace (0 <=? i - 1) with false by (symmetry; apply Z.leb_gt; lia). cbn [andb].
    replace (i - 1 <? 0) with true by (symmetry; apply Z.ltb_lt; lia). cbn [andb].
    destruct (Z.leb_spec (- Py.len l) (i - 1)) as [Hl | Hl].
    + specialize (N (i - 1 + Py.len l) ltac:(lia)).
      destruct (nth_error l (Z.to_nat (i - 1 + Py.len l))); [|congruence].
      apply Z.gtb_lt. lia.
    + rewrite Z.gtb_ltb. apply Z.ltb_ge. lia.
Qed.

(** X2: which tracks [matches] keeps, in terms of subscripts that exist.
    For an offset that is not negative the guard is exact: the track is
    kept when its history has that subscript.  For a negative offset the
    guard asks for one observation more: the track is kept when its
    history has the subscript one further from the end. *)
Theorem matches_keeps_by_subscript (index1 index2 : Z) (s : KLT.OpenCVKLT T) :
  exists p1 p2,
    KLT.matches index1 index2 s =
      Ok (map fst (filter (fun e => has_item (snd e) (guarded_offset index1)
                                    && has_item (snd e) (guarded_offset index2))
                          (tm_tracks (KLT.tm_ s))),
          p1, p2).
Proof.
  destruct (matches_loop_pairs index1 index2 (tm_tracks (KLT.tm_ s)))
    as [p1 [p2 [E [F1 F2]]]].
  assert (Q : filter (guard index1 index2) (tm_tracks (KLT.tm_ s))
            = filter (fun e => has_item (snd e) (guarded_offset index1)
                                && has_item (snd e) (guarded_offset index2))
                     (tm_tracks (KLT.tm_ s))).
  { apply filter_ext. intros e. unfold guard. rewrite !guard_is_subscript. reflexivity. }
  unfold KLT.matches. rewrite E, <- Q.
  destruct p1 as [|a p1], p2 as [|b p2].
  - exists [], []. inversion F1 as [H|]. reflexivity.
  - inversion F1 as [H|]. rewrite <- H in F2. inversion F2.
  - inversion F2 as [H|]. rewrite <- H in F1. inversion F1.
  - exists (a :: p1), (b :: p2). reflexivity.
Qed.

(** X3: [reset] only sets the flag, and the call that follows it
    replenishes whatever the number of tracks: when it returns it has
    handed its new points to [add(.., ids=None, prune=False)] once, and
    when it raises the flag is still set. *)
Theorem reset_forces_replenish
  (s : KLT.OpenCVKLT T) (im : Image) (d : option (list point)) :
  let s' := after_reset s in
  let r := KLT.process im d s' in
  KLT.tm_ s' = KLT.tm_ s /\ KLT.ims_ s' = KLT.ims_ s
  /\ KLT.min_tracks_ s' = KLT.min_tracks_ s
  /\ match outcome_of r with
     | Ok _ => exists new_pts, registered (log_of r) = [new_pts]
     | Raise _ => KLT.add_features_ (state_of r) = true
     end.
Proof.
  cbv zeta. split; [reflexivity|]. split; [reflexivity|]. split; [reflexivity|].
  rewrite KLTProofs.process_phases_eq.
  unfold process_phases, outcome_of, state_of, log_of.
  pose proof (KLTProofs.propagate_registers_nothing (KLT.tm_ (after_reset s))
    (Py.deque_append 2 (KLT.ims_ (after_reset s)) (gaussian_blur_to_gray im))) as P.
  destruct (propagate _ _) as [m1 log1]. cbn [snd] in P.
  assert (W : wants_features (after_reset s) = true) by reflexivity.
  rewrite W.
  pose proof (proj2 (KLTProofs.candidates_log_quiet im d
    (KLT.create_mask (im_shape im) (tm_pts (KLT.tm_ (after_reset s)))))) as Q.
  destruct (candidates im d _) as [[new_pts|e] l]; cbn [snd] in Q; cbn [fst snd].
  - exists new_pts.
    change (KLT.EvImshow ?m :: l ++ ?t) with ([KLT.EvImshow m] ++ l ++ t).
    rewrite !KLTProofs.registered_app, P, Q. reflexivity.
  - reflexivity.
Qed.

(** X4: a call that does not replenish never looks at [detected_pts]:
    with the flag clear and at least [min_tracks] points on entry, the
    call does the same with any candidates as with none, so candidates
    outside the image cannot make it raise. *)
Theorem candidates_ignored_without_replenish
  (s : KLT.OpenCVKLT T) (im : Image) (d : option (list point))
  (Hquiet : wants_features s = false) :
  KLT.process im d s = KLT.process im None s
  /\ exists ids_pts, outcome_of (KLT.process im d s) = Ok ids_pts.
Proof.
  rewrite !KLTProofs.process_phases_eq. unfold process_phases, outcome_of.
  destruct (propagate _ _) as [m1 log1]. rewrite Hquiet.
  split; [reflexivity|]. eexists. reflexivity.
Qed.

(** X5: a call that raises is not undone.  It raises only when it
    replenishes from supplied candidates it cannot select from, the frame
    being a colour frame or a candidate not indexing the mask, and then
    with [IndexError]; the frame stays pushed, the tracks stay
    propagated, nothing is registered, and the flag is left set, so the
    next call replenishes again. *)
Theorem raising_call_keeps_its_effects
  (s : KLT.OpenCVKLT T) (im : Image) (d : option (list point)) (e : exn)
  (Hraise : outcome_of (KLT.process im d s) = Raise e) :
  let r := KLT.process im d s in
  let ims := Py.deque_append 2 (KLT.ims_ s) (gaussian_blur_to_gray im) in
  e = IndexError
  /\ wants_features s = true
  /\ (exists cands, d = Some cands
        /\ (color (im_shape im) = true
            \/ forallb (indexable (im_shape im)) cands = false))
  /\ KLT.ims_ (state_of r) = ims
  /\ KLT.tm_ (state_of r) = fst (propagate (KLT.tm_ s) ims)
  /\ KLT.add_features_ (state_of r) = true
  /\ registered (log_of r) = []
  /\ log_of r = snd (propagate (KLT.tm_ s) ims)
                ++ [KLT.EvImshow (KLT.create_mask (im_shape im) (tm_pts (KLT.tm_ s)))].
Proof.
  cbv zeta. revert Hraise. rewrite KLTProofs.process_phases_eq.
  unfold process_phases, outcome_of, state_of, log_of.
  pose proof (KLTProofs.propagate_registers_nothing (KLT.tm_ s)
    (Py.deque_append 2 (KLT.ims_ s) (gaussian_blur_to_gray im))) as P.
  destruct (propagate _ _) as [m1 log1]. cbn [fst snd] in *.
  destruct (wants_features s); [|discriminate].
  unfold candidates. destruct d as [l|]; [|discriminate].
  pose proof (KLTProofs.select_valid_outcome
                (KLT.create_mask (im_shape im) (tm_pts (KLT.tm_ s))) l) as S.
  rewrite KLTProofs.create_mask_shape in S.
  destruct (negb (color (im_shape im)) && forallb (indexable (im_shape im)) l) eqn:Sel.
  - destruct S as [r ->]. discriminate.
  - rewrite S. cbn [fst snd KLT.ims_ KLT.tm_ KLT.add_features_].
    intros H. injection H as <-.
    split; [reflexivity|]. split; [reflexivity|]. split.
    { exists l. split; [reflexivity|].
      apply andb_false_iff in Sel. destruct Sel as [Sel | Sel]; [left | right; exact Sel].
      apply negb_false_iff. exact Sel. }
    repeat split.
    change (KLT.EvImshow ?m :: []) with ([KLT.EvImshow m] ++ []).
    rewrite !KLTProofs.registered_app, P. reflexivity.
Qed.

(** X6: the first call on a fresh instance whose TrackManager holds no
    point, on a frame without channels, never calls the tracker, and
    registers every supplied candidate whose pixel is a pixel of the
    image: with nothing tracked the mask rejects nothing. *)
Theorem first_call_registers_all_candidates
  (max_track_length : nat) (min_tracks : Z) (im : Image) (cands : list point)
  (Hempty : KLT.points_of (tm_pts (tm_new max_track_length)) = [])
  (Hgray : color (im_shape im) = false)
  (Hin : forallb (in_image (im_shape im)) cands = true) :
  let r := KLT.process im (Some cands) (KLT.init max_track_length min_tracks) in
  filter is_propagation (log_of r) = []
  /\ registered (log_of r) = [cands]
  /\ KLT.tm_ (state_of r) = tm_add cands None false (tm_new max_track_length).
Proof.
  cbv zeta. rewrite KLTProofs.process_phases_eq.
  unfold process_phases, state_of, log_of, candidates.
  cbn [KLT.init KLT.ims_ KLT.tm_ KLT.min_tracks_ KLT.add_features_].
  change (Py.deque_append 2 [] (gaussian_blur_to_gray im)) with [gaussian_blur_to_gray im].
  cbn [propagate]. unfold wants_features. cbn [KLT.add_features_ orb].
  rewrite KLTProofs.select_valid_inside
    by (rewrite KLTProofs.create_mask_shape; assumption).
  replace (filter _ cands) with cands; [repeat split|].
  clear Hin. induction cands as [|c l IH]; [reflexivity|].
  cbn [filter]. rewrite KLTProofs.create_mask_data, Hempty.
  cbn. f_equal. exact IH.
Qed.

(** The circles after the first that cannot be drawn are not drawn. *)
Lemma draw_circles_stop (m : Mask) (pre post : list point) (p : point) :
  circle_drawable (KLT.pixel p) = false ->
  KLT.draw_circles m (pre ++ p :: post) = KLT.draw_circles m pre.
Proof.
  intros Hp. revert m. induction pre as [|q pre IH]; intros m.
  - cbn [app KLT.draw_circles]. rewrite Hp. reflexivity.
  - cbn [app KLT.draw_circles].
    destruct (circle_drawable (KLT.pixel q)); [apply IH | reflexivity].
Qed.

(** X7: the mask [create_mask] returns has the shape it was given; a
    pixel holds what the strokes of the anti-aliased radius-9 circles
    leave of 255, drawn in the order of the points at their truncated
    positions and up to the first point that cannot be drawn; the points
    behind that one leave no trace, as the drawing has ended; no point at
    all, [None] included, gives a mask of 255 everywhere. *)
Theorem create_mask_pixels
  (shape : Shape) (o : option (list point)) (row col : Z) :
  let m := KLT.create_mask shape o in
  mshape m = shape
  /\ mdata m row col =
       fold_left (fun v p => circle_pixel 9 0 (col - fst (KLT.pixel p))
                                              (row - snd (KLT.pixel p)) v)
                 (drawn (KLT.points_of o)) 255
  /\ (forall pre p post,
        circle_drawable (KLT.pixel p) = false ->
        KLT.create_mask shape (Some (pre ++ p :: post)) = KLT.create_mask shape (Some pre))
  /\ mdata (KLT.create_mask shape None) row col = 255
  /\ mdata (KLT.create_mask shape (Some [])) row col = 255.
Proof.
  cbv zeta. split; [apply KLTProofs.create_mask_shape|].
  split; [apply KLTProofs.create_mask_data|].
  split; [|split; reflexivity].
  intros pre p post Hp. unfold KLT.create_mask. apply draw_circles_stop. exact Hp.
Qed.

Lemma norm_index_value (n i k : Z) :
  Py.norm_index n i = Some k -> k = i mod n.
Proof.
  unfold Py.norm_index.
  destruct (Z.leb_spec 0 i) as [H0 | H0]; destruct (Z.ltb_spec i n) as [Hn | Hn];
    cbn [andb].
  - intros H. injection H as <-. symmetry. apply Z.mod_small. lia.
  - destruct (Z.ltb_spec i 0); [lia|]. discriminate.
  - destruct (Z.ltb_spec i 0) as [_ | ?]; [|lia].
    destruct (Z.leb_spec (- n) i) as [Hl | Hl]; cbn [andb]; [|discriminate].
    intros H. injection H as <-.
    apply (Z.mod_unique i n (-1) (i + n)); lia.
  - destruct (Z.ltb_spec i 0) as [_ | ?]; [|lia].
    destruct (Z.leb_spec (- n) i) as [Hl | Hl]; cbn [andb]; [lia | discriminate].
Qed.

(** Candidates that index the mask are kept when the mask is positive at
    the pixel numpy reads for them, modulo the shape. *)
Lemma take_valid_wrapped (m : Mask) (l : list point) :
  forallb (indexable (mshape m)) l = true ->
  KLT.take_valid m l =
  Ok (filter (fun c => 0 <? mdata m (snd (wrapped (mshape m) (KLT.pixel c)))
                                    (fst (wrapped (mshape m) (KLT.pixel c)))) l).
Proof.
  induction l as [|pt l IH]; intros H; [reflexivity|].
  cbn [forallb] in H. apply andb_true_iff in H. destruct H as [Hpt Hl].
  cbn [KLT.take_valid filter]. rewrite (IH Hl).
  unfold indexable in Hpt. unfold KLT.mask_at.
  destruct (Py.norm_index (rows (mshape m)) (snd (KLT.pixel pt))) as [r|] eqn:Er;
    [|discriminate].
  destruct (Py.norm_index (cols (mshape m)) (fst (KLT.pixel pt))) as [c|] eqn:Ec;
    [|discriminate].
  apply norm_index_value in Er, Ec. subst r c.
  unfold wrapped. cbn [fst snd].
  destruct (0 <? _); reflexivity.
Qed.

(** X8: candidates with negative coordinates are not rejected as such.
    On a frame without channels, when every candidate indexes the mask,
    negative indices included, a replenishing call returns and registers
    exactly the candidates for which the mask, drawn from the points held
    on entry, is positive at the pixel read modulo the image shape, so
    counted from the opposite edge for a negative coordinate. *)
Theorem candidates_read_modulo_shape
  (s : KLT.OpenCVKLT T) (im : Image) (cands : list point)
  (Hwant : wants_features s = true)
  (Hgray : color (im_shape im) = false)
  (Hidx : forallb (indexable (im_shape im)) cands = true) :
  let r := KLT.process im (Some cands) s in
  let entry := KLT.points_of (tm_pts (KLT.tm_ s)) in
  registered (log_of r) =
    [filter (fun c => 0 <? painted (drawn entry) (wrapped (im_shape im) (KLT.pixel c)))
            cands]
  /\ exists ids_pts, outcome_of r = Ok ids_pts.
Proof.
  cbv zeta. rewrite KLTProofs.process_phases_eq.
  unfold process_phases, log_of, outcome_of.
  pose proof (KLTProofs.propagate_registers_nothing (KLT.tm_ s)
    (Py.deque_append 2 (KLT.ims_ s) (gaussian_blur_to_gray im))) as P.
  destruct (propagate _ _) as [m1 log1]. cbn [snd] in P.
  rewrite Hwant. unfold candidates, KLT.select_valid.
  rewrite take_valid_wrapped by (rewrite KLTProofs.create_mask_shape; exact Hidx).
  rewrite KLTProofs.create_mask_shape, Hgray. cbn [fst snd app].
  split; [|eexists; reflexivity].
  change (KLT.EvImshow ?m :: ?t) with ([KLT.EvImshow m] ++ t).
  rewrite !KLTProofs.registered_app, P. cbn [registered app]. f_equal.
  apply filter_ext. intros c. rewrite KLTProofs.create_mask_data.
  destruct (wrapped (im_shape im) (KLT.pixel c)). reflexivity.
Qed.

(** X9: a replenishing call without candidates returns; it calls the
    detector once, on the frame just pushed and with the mask drawn from
    the points held on entry, and registers every point the detector
    gives, unfiltered, as the last thing it does. *)
Theorem detector_points_registered_as_given
  (s : KLT.OpenCVKLT T) (im : Image)
  (Hwant : wants_features s = true) :
  let r := KLT.process im None s in
  let cur := gaussian_blur_to_gray im in
  let mask := KLT.create_mask (im_shape im) (tm_pts (KLT.tm_ s)) in
  let new_pts := detector_process cur mask in
  (exists ids_pts, outcome_of r = Ok ids_pts)
  /\ log_of r =
       snd (propagate (KLT.tm_ s) (Py.deque_append 2 (KLT.ims_ s) cur))
       ++ [KLT.EvImshow mask; KLT.EvDetect cur mask; KLT.EvTMAdd new_pts None false]
  /\ KLT.tm_ (state_of r) =
       tm_add new_pts None false
         (fst (propagate (KLT.tm_ s) (Py.deque_append 2 (KLT.ims_ s) cur))).
Proof.
  cbv zeta. rewrite KLTProofs.process_phases_eq.
  unfold process_phases, log_of, outcome_of, state_of.
  destruct (propagate _ _) as [m1 log1]. rewrite Hwant. cbn [candidates fst snd].
  split; [eexists; reflexivity|]. split; reflexivity.
Qed.

End Facts.
End KLTMore.


(** * Further concrete runs of the tracker *)

Module KLTMoreExamples.
Import KLTSpec Phases KLTSpecMore Demo DemoMore.

(** With three tracks and [min_tracks] 3 a candidate far outside the
    frame changes nothing. *)
Lemma candidates_ignored_witness :
  wants_features three_tracks = false
  /\ KLT.process 1%nat (Some [pt 5000 0]) three_tracks = KLT.process 1%nat None three_tracks.
Proof.
  assert (H : wants_features three_tracks = false) by (vm_compute; reflexivity).
  split; [exact H|].
  exact (proj1 (KLTMore.candidates_ignored_without_replenish
                  three_tracks 1%nat (Some [pt 5000 0]) H)).
Defined.

(** The raising first call of a fresh tracker on a colour frame, with a
    candidate inside the image: frame 100 is buffered and the flag is
    still set. *)
Lemma raising_call_witness :
  let r := KLT.process 100%nat (Some [pt 10 10]) fresh in
  outcome_of r = Raise IndexError
  /\ color (im_shape 100%nat) = true
  /\ KLT.ims_ (state_of r) = [100%nat]
  /\ KLT.add_features_ (state_of r) = true.
Proof.
  cbv zeta.
  assert (H : outcome_of (KLT.process 100%nat (Some [pt 10 10]) fresh) = Raise IndexError)
    by (vm_compute; reflexivity).
  destruct (KLTMore.raising_call_keeps_its_effects fresh 100%nat (Some [pt 10 10])
              IndexError H) as [_ [_ [_ [Hi [_ [Hf _]]]]]].
  split; [exact H|]. split; [reflexivity|].
  split; [rewrite Hi; reflexivity | exact Hf].
Defined.

(** A fresh tracker registers both candidates of its first frame. *)
Lemma first_call_witness :
  registered (log_of (KLT.process 0%nat (Some [pt 10 10; pt 50 50]) fresh))
  = [[pt 10 10; pt 50 50]].
Proof.
  exact (proj1 (proj2 (@KLTMore.first_call_registers_all_candidates
                         vision SpecTM.t spec_track_manager
                         20 3 0%nat [pt 10 10; pt 50 50] eq_refl eq_refl eq_refl))).
Defined.

(** A point at column 10000000000 cannot be drawn: the circle of the
    point (10, 10) behind it is not drawn either, and the pixel at row
    10, column 10 stays 255. *)
Lemma undrawable_point_witness :
  circle_drawable (KLT.pixel (pt 10000000000 5)) = false
  /\ mdata (KLT.create_mask (im_shape 0%nat) (Some [pt 10000000000 5; pt 10 10])) 10 10
     = 255.
Proof.
  assert (Hp : circle_drawable (KLT.pixel (pt 10000000000 5)) = false)
    by (vm_compute; reflexivity).
  split; [exact Hp|].
  pose proof (proj1 (proj2 (proj2
    (KLTMore.create_mask_pixels (im_shape 0%nat) None 10 10)))
    [] (pt 10000000000 5) [pt 10 10] Hp) as H.
  cbn [app] in H. rewrite H. reflexivity.
Defined.

(** Column -190 of a frame 200 columns wide is column 10, next to the
    track at (10, 10); column -1 is column 199, which is free. *)
Lemma wrapped_candidates_witness :
  forallb (indexable (im_shape 1%nat)) [pt (-190) 10; pt (-1) 5] = true
  /\ registered (log_of (KLT.process 1%nat (Some [pt (-190) 10; pt (-1) 5]) two_tracks))
     = [[pt (-1) 5]].
Proof.
  assert (Hwant : wants_features two_tracks = true) by (vm_compute; reflexivity).
  assert (Hgray : color (im_shape 1%nat) = false) by reflexivity.
  assert (Hidx : forallb (indexable (im_shape 1%nat)) [pt (-190) 10; pt (-1) 5] = true)
    by (vm_compute; reflexivity).
  split; [exact Hidx|].
  rewrite (proj1 (KLTMore.candidates_read_modulo_shape
                    two_tracks 1%nat [pt (-190) 10; pt (-1) 5] Hwant Hgray Hidx)).
  vm_compute. reflexivity.
Defined.

(** The detector of the demo finds nothing: the call registers the empty
    list. *)
Lemma detector_call_witness :
  wants_features two_tracks = true
  /\ registered (log_of (KLT.process 1%nat None two_tracks)) = [[]].
Proof.
  assert (Hwant : wants_features two_tracks = true) by (vm_compute; reflexivity).
  split; [exact Hwant|].
  rewrite (proj1 (proj2 (KLTMore.detector_points_registered_as_given
                           two_tracks 1%nat Hwant))).
  vm_compute. reflexivity.
Defined.

End KLTMoreExamples.


(** * Further properties of the pose files *)

Module KittiMoreProofs.
Section Facts.
Context {FT : Kitti.FloatText} {R : Kitti.Rigid}.
Import Kitti KittiMore.



(** X11: [kitti_poses_to_mat] raises [ValueError] on no pose; on
    others it returns one row of twelve entries per pose, the lines of
    [kitti_poses_to_str] are these rows written out, and cutting the rows
    back into rotation and translation blocks gives [from_Rt] the blocks
    of the matrices they came from. *)
Theorem poses_to_mat_rows (poses : list RigidTransform) :
  match poses with
  | [] => kitti_poses_to_mat poses = Raise ValueError
  | _ :: _ =>
      exists rows,
        kitti_poses_to_mat poses = Ok rows
        /\ List.length rows = List.length poses
        /\ Forall (fun row => List.length row = 12%nat) rows
        /\ kitti_poses_to_str poses =
             String.concat (String "013" (String "010" EmptyString)) (map line_of rows)
        /\ exists blocks,
             reshape_12 (List.concat rows) = Ok blocks
             /\ map (fun p => from_Rt (fst p) (snd p)) blocks
                = map (reread_pose (fun x => x)) poses
  end.
Proof.
  destruct poses as [|x poses]; [reflexivity|].
  set (ps := x :: poses). exists (map flatten34 ps).
  split; [reflexivity|].
  split; [apply length_map|]. split.
  - apply Forall_forall. intros row Hrow. apply in_map_iff in Hrow.
    destruct Hrow as [y [<- _]]. unfold flatten34.
    destruct (matrix y) as [[[[[[a0 a1] a2] a3] [[[b0 b1] b2] b3]] [[[c0 c1] c2] c3]] r3].
    reflexivity.
  - split.
    + unfold kitti_poses_to_str, line_of. rewrite map_map. reflexivity.
    + pose proof (KittiProofs.reshape_poses (fun x => x) ps) as H.
      rewrite map_id in H.
      destruct (reshape_12 (List.concat (map flatten34 ps))) as [blocks|e];
        [|contradiction].
      exists blocks. split; [reflexivity | exact H].
Qed.

(** X12: when Python writes every float as one item, the text of
    [kitti_poses_to_str] holds twelve items per pose: the entries of the
    top three rows of each matrix, row by row, pose after pose.  No pose
    gives the empty text. *)
Theorem poses_text_items (poses : list RigidTransform)
  (str_is_item : forall x, is_item (float_str x) = true) :
  items [] (list_ascii_of_string (kitti_poses_to_str poses))
    = map float_str (List.concat (map flatten34 poses))
  /\ List.length (items [] (list_ascii_of_string (kitti_poses_to_str poses)))
     = (12 * List.length poses)%nat
  /\ kitti_poses_to_str [] = "".
Proof.
  assert (E : items [] (list_ascii_of_string (kitti_poses_to_str poses))
              = map float_str (List.concat (map flatten34 poses))).
  { unfold kitti_poses_to_str.
    rewrite (KittiProofs.items_concat _ _ (or_intror eq_refl)).
    rewrite <- (map_map flatten34 (fun l => String.concat " " (map float_str l))).
    apply (KittiProofs.items_of_lines str_is_item). }
  split; [exact E|]. split; [|reflexivity].
  rewrite E, length_map. clear E.
  induction poses as [|x poses IH]; [reflexivity|].
  cbn [map List.concat]. rewrite length_app, IH. unfold flatten34.
  destruct (matrix x) as [[[[[[a0 a1] a2] a3] [[[b0 b1] b2] b3]] [[[c0 c1] c2] c3]] r3].
  cbn [List.length]. lia.
Qed.

End Facts.
End KittiMoreProofs.


(** * Further properties of the dataset composers *)

Module ComposerMoreProofs.
Section Facts.
Context {RD : Composer.Readers} {RI : ComposerMore.ReaderItems}.
Import Composer ComposerMore.

(** X13: without a calibration there is no composer.  When the lookup
    for the sequence fails, both [KITTIDatasetReader] and
    [KITTIRawDatasetReader] fail to construct with the error of the
    lookup, whatever the readers would do. *)
Theorem calibration_failure_fails_construction (a : Args) (e : exn)
  (Hcalib : Kitti.kitti_stereo_calib (sequence a) (scale a) = Raise e) :
  KITTIDatasetReader_init a = Raise e
  /\ KITTIRawDatasetReader_init a = Raise e.
Proof.
  assert (B : KITTIDatasetReader_init a = Raise e)
    by (unfold KITTIDatasetReader_init; rewrite Hcalib; reflexivity).
  split; [exact B|]. unfold KITTIRawDatasetReader_init. rewrite B. reflexivity.
Qed.

(** X14: [KITTIDatasetReader] is constructed exactly when the
    calibration is found and the stereo reader is built; the pose reader
    and the velodyne reader cannot make it fail: each attribute holds the
    reader when it could be built and [repeat(None)] when it raised. *)
Theorem base_reader_construction (a : Args) :
  let seq_directory :=
    os_path_join [os_path_expanduser (directory a); "sequences"; sequence a] in
  let stereo_reader :=
    new_StereoDatasetReader seq_directory
      (os_path_join [seq_directory; left_template a])
      (os_path_join [seq_directory; right_template a]) in
  let velodyne_reader :=
    new_VelodyneDatasetReader (os_path_join [seq_directory; velodyne_template a])
      (start_idx a) (max_files a) in
  ((exists r, KITTIDatasetReader_init a = Ok r) <->
   (exists c st, Kitti.kitti_stereo_calib (sequence a) (scale a) = Ok c
                 /\ stereo_reader = Ok st))
  /\ (forall r, KITTIDatasetReader_init a = Ok r ->
        Kitti.kitti_stereo_calib (sequence a) (scale a) = Ok (calib r)
        /\ stereo_reader = Ok (stereo r)
        /\ poses r = or_repeat_none (new_FileReader (pose_fn a))
        /\ velodyne r = or_repeat_none velodyne_reader).
Proof.
  cbv zeta. unfold KITTIDatasetReader_init.
  destruct (Kitti.kitti_stereo_calib (sequence a) (scale a)) as [c|e].
  - destruct (new_StereoDatasetReader _ _ _) as [st|e].
    + split.
      * split; [intros _; exists c, st; split; reflexivity | intros _; eexists; reflexivity].
      * intros r H. injection H as <-. repeat split.
    + split.
      * split; [intros [r H]; discriminate H | intros [c' [st [_ H]]]; discriminate H].
      * intros r H. discriminate H.
  - split.
    + split; [intros [r H]; discriminate H | intros [c' [st [H _]]]; discriminate H].
    + intros r H. discriminate H.
Qed.

(** X15: what [KITTIRawDatasetReader] holds once constructed.  Its stereo
    and velodyne readers were built, the latter outside any fallback; the
    poses are the reader or [repeat(None)]; and the OXTS records are
    [repeat(None)] as soon as the format file or the record reader
    fails, the field names being left unset only when the format file
    could not be read. *)
Theorem raw_reader_construction (a : Args) (r : KITTIRawDatasetReader)
  (Hinit : KITTIRawDatasetReader_init a = Ok r) :
  let fmt := read_field_names
               (os_path_join [os_path_expanduser (directory a); "oxts/dataformat.txt"]) in
  let oxt_reader :=
    new_DatasetReader (os_path_join [os_path_expanduser (directory a); oxt_template a]) in
  new_StereoDatasetReader (directory a) (left_template a) (right_template a)
    = Ok (raw_stereo r)
  /\ new_VelodyneDatasetReader (os_path_join [directory a; velodyne_template a])
       (start_idx a) (max_files a) = Ok (raw_velodyne r)
  /\ raw_poses r = or_repeat_none (new_FileReader (pose_fn a))
  /\ match fmt with
     | Raise _ => oxt_formats r = None /\ oxts r = RepeatNone
     | Ok names => oxt_formats r = Some names /\ oxts r = or_repeat_none oxt_reader
     end.
Proof.
  cbv zeta. revert Hinit. unfold KITTIRawDatasetReader_init.
  destruct (KITTIDatasetReader_init a) as [base|e]; [|discriminate].
  destruct (new_StereoDatasetReader _ _ _) as [st|e]; [|discriminate].
  destruct (new_VelodyneDatasetReader _ _ _) as [v|e]; [|discriminate].
  destruct (read_field_names _) as [names|e].
  - intros H. injection H as <-. repeat split.
  - intros H. injection H as <-. repeat split.
Qed.

(** X16: the placeholder of a missing pose file stops the reader's own
    frame iterator.  When the pose reader could not be built, a
    constructed [KITTIDatasetReader] yields no frame from [iterframes] or
    [iter_gt_frames]: both end with the [AttributeError] of calling
    [iteritems] on [repeat(None)]; likewise [iter_velodyne_frames] when the
    velodyne reader could not be built. *)
Theorem missing_modality_stops_iteration (a : Args) (r : KITTIDatasetReader)
  (Hinit : KITTIDatasetReader_init a = Ok r) :
  (forall e, new_FileReader (pose_fn a) = Raise e ->
     iterframes r = ([], Some AttributeError)
     /\ iter_gt_frames r = ([], Some AttributeError))
  /\ (forall e,
        new_VelodyneDatasetReader
          (os_path_join [os_path_join [os_path_expanduser (directory a); "sequences";
                                       sequence a];
                         velodyne_template a])
          (start_idx a) (max_files a) = Raise e ->
        iter_velodyne_frames r = Raise AttributeError).
Proof.
  revert Hinit. unfold KITTIDatasetReader_init.
  destruct (Kitti.kitti_stereo_calib _ _) as [c|e0]; [|discriminate].
  destruct (new_StereoDatasetReader _ _ _) as [st|e0]; [|discriminate].
  intros H. injection H as <-. split.
  - intros e He. unfold iterframes, iter_gt_frames, zip_frames. cbn [poses stereo].
    rewrite He. split; reflexivity.
  - intros e He. unfold iter_velodyne_frames. cbn [velodyne]. rewrite He. reflexivity.
Qed.

Lemma nth_error_combine_pair {A B} (la : list A) (lb : list B) (i : nat) (x : A) (y : B) :
  nth_error (combine la lb) i = Some (x, y) <->
  nth_error la i = Some x /\ nth_error lb i = Some y.
Proof.
  revert lb i. induction la as [|a la IH]; intros lb i.
  - cbn. destruct i; split; [discriminate | intros [H _]; discriminate H
                            | discriminate | intros [H _]; discriminate H].
  - destruct lb as [|b lb].
    + cbn. destruct i; split; try discriminate; intros [_ H]; discriminate H.
    + destruct i as [|i]; cbn.
      * split; [intros H; injection H as -> ->; split; reflexivity
               | intros [H1 H2]; injection H1 as ->; injection H2 as ->; reflexivity].
      * apply IH.
Qed.

(** X17: with a pose reader, [iterframes] pairs the stereo frames with the
    poses by position and stops with the shorter of the two: frame i
    holds the i-th stereo pair and the i-th pose, and the iteration ends
    without an error. *)
Theorem iterframes_pairs_by_position (r : KITTIDatasetReader) (p : FileReader)
  (Hposes : poses r = Reader p) :
  snd (iterframes r) = None
  /\ List.length (fst (iterframes r))
     = Nat.min (List.length (stereo_iteritems (stereo r)))
               (List.length (file_iteritems p))
  /\ (forall i l rt ps,
        nth_error (stereo_iteritems (stereo r)) i = Some (l, rt) ->
        nth_error (file_iteritems p) i = Some ps ->
        nth_error (fst (iterframes r)) i
        = Some {| left := l; right := rt; frame_velodyne := None; pose := ps |}).
Proof.
  unfold iterframes, zip_frames. rewrite Hposes. cbn [poses_iteritems fst snd].
  split; [reflexivity|]. split; [rewrite length_map; apply length_combine|].
  intros i l rt ps Hs Hp.
  rewrite nth_error_map.
  rewrite (proj2 (nth_error_combine_pair _ _ i (l, rt) ps) (conj Hs Hp)). reflexivity.
Qed.

Lemma zip4_length {A B C D} (a : list A) (b : list B) (c : list C) (d : list D) :
  List.length (zip4 a b c d)
  = Nat.min (Nat.min (List.length a) (List.length b))
            (Nat.min (List.length c) (List.length d)).
Proof.
  revert b c d. induction a as [|x a IH]; intros b c d; [reflexivity|].
  destruct b as [|y b]; [reflexivity|].
  destruct c as [|z c]; [cbn; lia|].
  destruct d as [|w d]; [cbn; lia|].
  cbn [zip4 List.length]. rewrite IH. lia.
Qed.

Lemma zip3_length {A B C} (a : list A) (b : list B) (c : list C) :
  List.length (zip3 a b c)
  = Nat.min (List.length a) (Nat.min (List.length b) (List.length c)).
Proof.
  revert b c. induction a as [|x a IH]; intros b c; [reflexivity|].
  destruct b as [|y b]; [reflexivity|].
  destruct c as [|z c]; [cbn; lia|].
  cbn [zip3 List.length]. rewrite IH. lia.
Qed.

Lemma zip3_third {A B C} (a : list A) (b : list B) (c : list C) (t : A * B * C) :
  In t (zip3 a b c) -> In (snd t) c.
Proof.
  revert b c. induction a as [|x a IH]; intros b c H; [contradiction|].
  destruct b as [|y b]; [contradiction|].
  destruct c as [|z c]; [contradiction|].
  destruct H as [<- | H]; [left; reflexivity | right; exact (IH _ _ H)].
Qed.

(** X18: the ground-truth iterator yields as many records as the shortest
    of its four streams (stereo pairs, non-occluded and occluded
    disparities, calibrations); in every record the depth is the occluded
    disparity, and there is no pose. *)
Theorem gt_frames_depth_is_occluded (g : KITTIStereoGroundTruthDatasetReader) :
  List.length (gt_iter_gt_frames g)
  = Nat.min (Nat.min (List.length (stereo_iteritems (gt_stereo g)))
                     (List.length (image_iteritems (gt_noc g))))
            (Nat.min (List.length (image_iteritems (gt_occ g)))
                     (List.length (calib_iteritems (gt_calib g))))
  /\ Forall (fun fr => gt_depth fr = gt_frame_occ fr /\ gt_pose fr = None)
            (gt_iter_gt_frames g).
Proof.
  unfold gt_iter_gt_frames. split; [rewrite length_map; apply zip4_length|].
  apply Forall_forall. intros fr H. apply in_map_iff in H.
  destruct H as [[[[lr noc] occ] cal] [<- _]]. split; reflexivity.
Qed.

(** X19: a constructed [KITTIRawDatasetReader] whose pose file, OXTS
    format file or OXTS record reader was missing yields no frame:
    [iterframes] ends with the [AttributeError] of calling [iteritems] on
    [repeat(None)]. *)
Theorem raw_missing_modality_stops_iteration (a : Args) (r : KITTIRawDatasetReader)
  (Hinit : KITTIRawDatasetReader_init a = Ok r)
  (Hmissing :
     (exists e, new_FileReader (pose_fn a) = Raise e)
     \/ (exists e, read_field_names
                     (os_path_join [os_path_expanduser (directory a);
                                    "oxts/dataformat.txt"]) = Raise e)
     \/ (exists e, new_DatasetReader
                     (os_path_join [os_path_expanduser (directory a); oxt_template a])
                   = Raise e)) :
  raw_iterframes r = ([], Some AttributeError).
Proof.
  revert Hinit. unfold KITTIRawDatasetReader_init.
  destruct (KITTIDatasetReader_init a) as [base|e0]; [|discriminate].
  destruct (new_StereoDatasetReader _ _ _) as [st|e0]; [|discriminate].
  destruct (new_VelodyneDatasetReader _ _ _) as [v|e0]; [|discriminate].
  unfold raw_iterframes.
  destruct Hmissing as [[e He] | [[e He] | [e He]]].
  - rewrite He. destruct (read_field_names _); intros H; injection H as <-; reflexivity.
  - rewrite He. intros H. injection H as <-. cbn [raw_poses oxts].
    destruct (or_repeat_none _); reflexivity.
  - rewrite He. destruct (read_field_names _); intros H; injection H as <-;
      cbn [raw_poses oxts or_repeat_none]; destruct (or_repeat_none _); reflexivity.
Qed.

(** X20: with pose and OXTS readers and the field names set, the raw
    [iterframes] ends without an error after as many frames as the
    shortest of its three streams; no frame has a velodyne scan, and the
    OXTS record of a frame pairs the field names with the values of one
    record by position, so it has as many fields as the shorter of the
    two. *)
Theorem raw_frames_by_position (r : KITTIRawDatasetReader)
  (p : FileReader) (o : DatasetReader) (names : list string)
  (Hposes : raw_poses r = Reader p) (Hoxts : oxts r = Reader o)
  (Hnames : oxt_formats r = Some names) :
  snd (raw_iterframes r) = None
  /\ List.length (fst (raw_iterframes r))
     = Nat.min (List.length (stereo_iteritems (raw_stereo r)))
               (Nat.min (List.length (file_iteritems p))
                        (List.length (oxts_iteritems o)))
  /\ Forall (fun fr =>
               raw_frame_velodyne fr = None
               /\ exists values,
                    In values (oxts_iteritems o)
                    /\ raw_oxt fr = combine names values
                    /\ List.length (raw_oxt fr)
                       = Nat.min (List.length names) (List.length values))
            (fst (raw_iterframes r)).
Proof.
  unfold raw_iterframes. rewrite Hposes, Hoxts, Hnames.
  cbn [poses_iteritems oxts_source_iteritems].
  pose proof (zip3_length (stereo_iteritems (raw_stereo r)) (file_iteritems p)
                (oxts_iteritems o)) as L.
  pose proof (fun t => zip3_third (stereo_iteritems (raw_stereo r)) (file_iteritems p)
                         (oxts_iteritems o) t) as Th.
  destruct (zip3 _ _ _) as [|t frames].
  - cbn [fst snd List.length] in *. split; [reflexivity|]. split; [exact L | constructor].
  - cbn [fst snd]. split; [reflexivity|]. split; [rewrite length_map; exact L|].
    apply Forall_forall. intros fr H. apply in_map_iff in H.
    destruct H as [[[lr ps] vals] [<- Hin]]. cbn [raw_frame_velodyne raw_oxt].
    split; [reflexivity|]. exists vals.
    split; [exact (Th _ Hin)|]. split; [reflexivity | apply length_combine].
Qed.

End Facts.
End ComposerMoreProofs.


(** * The composers and the pose text on concrete directories *)

Module MoreExamples.
Import Kitti KittiMore Composer ComposerMore Demo DemoMore.

(** Two poses written as zeros and ones make twenty-four items. *)
Lemma poses_text_items_witness :
  List.length (items [] (list_ascii_of_string
                           (kitti_poses_to_str [pose_identity; pose_shifted])))
  = 24%nat.
Proof.
  assert (Hitem : forall x : F, is_item (float_str x) = true)
    by (intros []; reflexivity).
  exact (proj1 (proj2 (KittiMoreProofs.poses_text_items
                         [pose_identity; pose_shifted] Hitem))).
Defined.

(** With the default sequence, the empty string, neither composer is
    constructed, although every reader of the directory could be built. *)
Lemma default_sequence_witness :
  let rd := dataset true true true true in
  Kitti.kitti_stereo_calib "" 1 = Raise ValueError
  /\ @KITTIDatasetReader_init rd default_sequence_args = Raise ValueError
  /\ @KITTIRawDatasetReader_init rd default_sequence_args = Raise ValueError.
Proof.
  cbv zeta. split; [reflexivity|].
  exact (@ComposerMoreProofs.calibration_failure_fails_construction
           (dataset true true true true) default_sequence_args ValueError eq_refl).
Defined.

(** A directory with neither pose file nor velodyne scans: the composer is
    built and holds [repeat(None)] for both. *)
Lemma base_reader_witness :
  let rd := dataset false false true true in
  exists r, @KITTIDatasetReader_init rd raw_args = Ok r
            /\ @poses rd r = RepeatNone /\ @velodyne rd r = RepeatNone.
Proof.
  cbv zeta. eexists. split; [reflexivity|].
  lazymatch goal with
  | |- poses ?r = _ /\ _ =>
      exact (proj2 (proj2
        (proj2 (@ComposerMoreProofs.base_reader_construction
                  (dataset false false true true) raw_args) r eq_refl)))
  end.
Defined.

(** A directory without the OXTS format file: the raw composer is built,
    with no field names and no OXTS records. *)
Lemma raw_reader_witness :
  let rd := dataset true true false true in
  exists r, @KITTIRawDatasetReader_init rd raw_args = Ok r
            /\ @oxt_formats rd r = None /\ @oxts rd r = RepeatNone.
Proof.
  cbv zeta. eexists. split; [reflexivity|].
  exact (proj2 (proj2 (proj2
    (@ComposerMoreProofs.raw_reader_construction (dataset true true false true)
       raw_args _ eq_refl)))).
Defined.

(** A directory without a pose file: the composer is built and its frame
    iterator ends at once with an [AttributeError]. *)
Lemma missing_poses_witness :
  let rd := dataset false true true true in
  exists r, @KITTIDatasetReader_init rd raw_args = Ok r
            /\ @iterframes rd r = ([], Some AttributeError).
Proof.
  cbv zeta. eexists. split; [reflexivity|].
  exact (proj1 (proj1
    (@ComposerMoreProofs.missing_modality_stops_iteration (dataset false true true true)
       raw_args _ eq_refl) IOError eq_refl)).
Defined.

(** Two stereo pairs and three poses give two frames. *)
Lemma iterframes_pairs_witness :
  let rd := dataset true true true true in
  exists r, @KITTIDatasetReader_init rd raw_args = Ok r
            /\ List.length (fst (@iterframes rd r)) = 2%nat.
Proof.
  cbv zeta. eexists. split; [reflexivity|].
  lazymatch goal with
  | |- List.length (fst (iterframes ?r)) = _ =>
      exact (proj1 (proj2
        (@ComposerMoreProofs.iterframes_pairs_by_position (dataset true true true true)
           r tt eq_refl)))
  end.
Defined.

(** A directory without OXTS records: the raw composer is built and its
    frame iterator ends at once with an [AttributeError]. *)
Lemma raw_missing_oxts_witness :
  let rd := dataset true true true false in
  exists r, @KITTIRawDatasetReader_init rd raw_args = Ok r
            /\ @raw_iterframes rd (items_of rd) r = ([], Some AttributeError).
Proof.
  cbv zeta. eexists. split; [reflexivity|].
  apply (@ComposerMoreProofs.raw_missing_modality_stops_iteration
           (dataset true true true false) (items_of _) raw_args _ eq_refl).
  right. right. exists IOError. reflexivity.
Defined.

(** A complete directory: two frames, each OXTS record pairing the first
    two of the three field names with the two values of its record. *)
Lemma raw_frames_witness :
  let rd := dataset true true true true in
  exists r, @KITTIRawDatasetReader_init rd raw_args = Ok r
            /\ List.length (fst (@raw_iterframes rd (items_of rd) r)) = 2%nat
            /\ map (@raw_oxt rd (items_of rd)) (fst (@raw_iterframes rd (items_of rd) r))
               = [[("lat", 49%Z); ("lon", 8%Z)]; [("lat", 50%Z); ("lon", 9%Z)]].
Proof.
  cbv zeta. eexists. split; [reflexivity|]. split; [|reflexivity].
  lazymatch goal with
  | |- List.length (fst (raw_iterframes ?r)) = _ =>
      exact (proj1 (proj2
        (@ComposerMoreProofs.raw_frames_by_position (dataset true true true true)
           (items_of _) r tt tt ["lat"; "lon"; "alt"] eq_refl eq_refl eq_refl)))
  end.
Defined.

End MoreExamples.


(** * Properties of the track drawing *)

Module DrawProofs.
Section Facts.
Context {V : Vision} {T : Type} {TM : TrackManager T} {P : Draw.Palette}.
Import Draw.

(** With twenty colours on the wheel every id finds its colour, at the
    index [tid mod 20]. *)
Lemma wheel_rows_ok (tracks : list (Z * list point)) :
  List.length colormap_wheel = 20%nat ->
  exists cols,
    wheel_rows tracks = Ok cols
    /\ Forall2 (fun e col => nth_error colormap_wheel (Z.to_nat (fst e mod 20)) = Some col)
               tracks cols.
Proof.
  intros Hw. induction tracks as [|[tid pts] rest [cols [E F]]].
  - exists []. split; [reflexivity | constructor].
  - cbn [wheel_rows]. unfold Py.getitem, Py.len. rewrite Hw.
    change (Z.of_nat 20) with 20.
    pose proof (Z.mod_pos_bound tid 20 ltac:(lia)) as B.
    rewrite (KLTProofs.norm_index_inside _ _ B).
    destruct (nth_error colormap_wheel (Z.to_nat (tid mod 20))) as [col|] eqn:N.
    + rewrite E. exists (col :: cols). split; [reflexivity|].
      constructor; [exact N | exact F].
    + apply nth_error_None in N. lia.
Qed.

Lemma draw_loop_ok (colored : bool) (pairs : list (Color * list point)) :
  Forall (fun p => snd p <> []) pairs ->
  draw_loop colored pairs
  = (Ok tt, flat_map (fun p => track_drawing colored (fst p) (snd p)) pairs).
Proof.
  induction pairs as [|[col pts] rest IH]; intros H; [reflexivity|].
  inversion H as [|? ? Hpts Hrest]; subst.
  cbn [draw_loop flat_map fst snd]. unfold track_drawing.
  destruct (rev pts) as [|latest r] eqn:E.
  - exfalso. apply Hpts. cbn [snd].
    apply (f_equal (@rev point)) in E. rewrite rev_involutive in E. exact E.
  - rewrite (IH Hrest). reflexivity.
Qed.

Lemma draw_loop_colors (colored : bool) (pairs : list (Color * list point)) :
  Forall (expected_color colored) (snd (draw_loop colored pairs))
  /\ (List.length (snd (draw_loop colored pairs)) <= 2 * List.length pairs)%nat.
Proof.
  induction pairs as [|[col pts] rest [IH L]]; [split; [constructor | cbn; lia]|].
  cbn [draw_loop]. destruct (rev pts) as [|latest r]; [split; [constructor | cbn; lia]|].
  destruct (draw_loop colored rest) as [o drawn]. cbn [snd] in *.
  split.
  - constructor; [|constructor; [reflexivity | exact IH]].
    cbn [expected_color]. destruct colored; [exists col; reflexivity | reflexivity].
  - cbn [List.length]. lia.
Qed.

(** X21: what [draw_tracks] does when there is nothing to choose a
    colour from.  A colour type other than ['age'] and ['unique'] is a
    [ValueError] whatever the tracks; with no track at all ['age'] is a
    [ValueError] too, while ['unique'] returns; nothing is drawn in any of
    these cases. *)
Theorem draw_tracks_without_colors
  (colored : bool) (color_type : string) (s : KLT.OpenCVKLT T) :
  (String.eqb color_type "age" = false -> String.eqb color_type "unique" = false ->
   draw_tracks colored color_type s = (Raise ValueError, []))
  /\ (tm_tracks (KLT.tm_ s) = [] ->
      draw_tracks colored "age" s = (Raise ValueError, [])
      /\ draw_tracks colored "unique" s = (Ok tt, [])).
Proof.
  split.
  - intros Ha Hu. unfold draw_tracks, track_colors. rewrite Ha, Hu. reflexivity.
  - intros E. unfold draw_tracks, track_colors. rewrite E. cbn.
    split; [reflexivity|]. destruct (colormap_of []); reflexivity.
Qed.

(** X22: in ['age'] mode, with twenty colours on the wheel, at least
    one track and an observation in every track, [draw_tracks] returns
    and draws, track after track, the polyline through the pixels of its
    observations and the rectangle from the latest observation minus 2 to
    the latest plus 2; the colour of a track is the one at index
    [tid mod 20] of the wheel, which exists for negative ids as well. *)
Theorem draw_tracks_by_age
  (colored : bool) (s : KLT.OpenCVKLT T)
  (Hwheel : List.length colormap_wheel = 20%nat)
  (Hsome : tm_tracks (KLT.tm_ s) <> [])
  (Hobs : Forall (fun e => snd e <> []) (tm_tracks (KLT.tm_ s))) :
  exists cols,
    Forall2 (fun e col => nth_error colormap_wheel (Z.to_nat (fst e mod 20)) = Some col)
            (tm_tracks (KLT.tm_ s)) cols
    /\ draw_tracks colored "age" s
       = (Ok tt,
          flat_map (fun p => track_drawing colored (fst p) (snd p))
                   (combine cols (map snd (tm_tracks (KLT.tm_ s))))).
Proof.
  destruct (wheel_rows_ok (tm_tracks (KLT.tm_ s)) Hwheel) as [cols [E F]].
  exists cols. split; [exact F|].
  unfold draw_tracks, track_colors. cbn [String.eqb Ascii.eqb Bool.eqb andb].
  rewrite E.
  destruct cols as [|c cols].
  - inversion F as [Z|]. symmetry in Z. contradiction.
  - apply draw_loop_ok. apply Forall_forall. intros [col pts] Hin.
    apply in_combine_r in Hin. apply in_map_iff in Hin.
    destruct Hin as [e [He Hin]]. cbn [snd] in *. subst pts.
    exact (proj1 (Forall_forall _ _) Hobs e Hin).
Qed.

(** X23: the colours [draw_tracks] uses.  Every rectangle is green
    (0, 255, 0), with [colored] or without; a polyline is green unless
    [colored], and then it has a colour of the map; and there are at most
    a polyline and a rectangle per track, also when the call raises part
    of the way. *)
Theorem draw_tracks_colors
  (colored : bool) (color_type : string) (s : KLT.OpenCVKLT T) :
  Forall (expected_color colored) (snd (draw_tracks colored color_type s))
  /\ (List.length (snd (draw_tracks colored color_type s))
      <= 2 * List.length (tm_tracks (KLT.tm_ s)))%nat.
Proof.
  unfold draw_tracks.
  destruct (track_colors color_type (tm_tracks (KLT.tm_ s))) as [cols|e];
    [|split; [constructor | cbn; lia]].
  destruct (draw_loop_colors colored (combine cols (map snd (tm_tracks (KLT.tm_ s)))))
    as [C L].
  split; [exact C|].
  rewrite length_combine, length_map in L. lia.
Qed.

End Facts.
End DrawProofs.


(** * Drawing the tracks of the demo *)

Module DrawExamples.
Import KLTSpec Draw Demo DemoMore.

(** A fresh tracker has no track: an undefined colour type and ['age']
    raise, ['unique'] returns, and nothing is drawn. *)
Lemma draw_without_colors_witness :
  draw_tracks false "length" fresh = (Raise ValueError, [])
  /\ draw_tracks false "age" fresh = (Raise ValueError, [])
  /\ draw_tracks false "unique" fresh = (Ok tt, []).
Proof.
  destruct (DrawProofs.draw_tracks_without_colors false "length" fresh) as [H1 H2].
  split; [exact (H1 eq_refl eq_refl) | exact (H2 eq_refl)].
Defined.

(** The track seen at (10, 10) and then at (50, 50) is drawn in the
    colour of its id. *)
Lemma draw_by_age_witness :
  exists cols,
    Forall2 (fun e col => nth_error colormap_wheel (Z.to_nat (fst e mod 20)) = Some col)
            (tm_tracks (KLT.tm_ seen_twice)) cols
    /\ draw_tracks true "age" seen_twice
       = (Ok tt,
          flat_map (fun p => track_drawing true (fst p) (snd p))
                   (combine cols (map snd (tm_tracks (KLT.tm_ seen_twice))))).
Proof.
  assert (E : tm_tracks (KLT.tm_ seen_twice) = [(0, [pt 10 10; (50 # 1, 50 # 1)%Q])])
    by (vm_compute; reflexivity).
  apply DrawProofs.draw_tracks_by_age.
  - reflexivity.
  - rewrite E. discriminate.
  - rewrite E. constructor; [discriminate | constructor].
Defined.

Example seen_twice_drawn :
  draw_tracks true "age" seen_twice
  = (Ok tt, [Polylines [(10, 10); (50, 50)] (OfMap 0%nat);
             Rectangle (pt 48 48) (pt 52 52) (Fixed 0 255 0)]).
Proof. vm_compute. reflexivity. Qed.

End DrawExamples.
